(** * justascraper: the fetch, parse, diff, persist, notify pipeline

    A shallow embedding of [scraper.py], [utils/notifier.py],
    [startup_check.py] and the constants of [config.py], with the properties
    of the design document proved or refuted on it, followed by further
    properties read off the code.

    Representation choices.
    - A Python [str] is represented by its UTF-8 encoding, as a [string] of
      bytes; [response.encoding = 'utf-8'] makes every string that enters the
      program a decoded UTF-8 text, free of lone surrogates, so that
      [encode('utf-8')] cannot fail.  Emptiness, [startswith], [in] and
      concatenation of texts coincide with the same operations on their
      encodings (UTF-8 is self-synchronising), and [s.encode('utf-8')] is the
      byte list of the representation.  Slicing by characters ([s[:100]])
      is written out on the encoding ([take_chars]).
    - Python integers are [Z].
    - The outside world (clock, HTML library, desktop notification back end,
      platform name) is a set of oracles, the variables of [Section Program];
      what one iteration of the daemon meets (the HTTP answer, the fate of
      the write, Ctrl+C) is a [cycle_input].
    - The data file holds a value, not a text: [json.dump] and [json.load]
      are taken to be inverse of each other on the dictionaries written.
    - Logging is write-only and is left out of the state. *)

From Stdlib Require Import ZArith List String Ascii Bool Lia DecimalString.
From stdpp Require Import base option list gmap strings.
Import ListNotations.

Local Open Scope string_scope.
Local Open Scope Z_scope.

(* Let [simpl] compute concatenations of string literals. *)
Local Arguments String.append !_ _ / : simpl nomatch.

(** ** hashlib.md5 (RFC 1321), over 32-bit words held in [Z] *)

Module MD5.

Definition wrap32 (x : Z) : Z := x mod 2^32.

Definition add32 (x y : Z) : Z := wrap32 (x + y).

Definition not32 (x : Z) : Z := Z.lxor x 0xffffffff.

Definition rotl32 (x : Z) (s : Z) : Z :=
  Z.lor (wrap32 (Z.shiftl x s)) (Z.shiftr x (32 - s)).

(** The table [K i = floor (2^32 * |sin (i + 1)|)]. *)
Definition K : list Z :=
  [ 0xd76aa478; 0xe8c7b756; 0x242070db; 0xc1bdceee;
    0xf57c0faf; 0x4787c62a; 0xa8304613; 0xfd469501;
    0x698098d8; 0x8b44f7af; 0xffff5bb1; 0x895cd7be;
    0x6b901122; 0xfd987193; 0xa679438e; 0x49b40821;
    0xf61e2562; 0xc040b340; 0x265e5a51; 0xe9b6c7aa;
    0xd62f105d; 0x02441453; 0xd8a1e681; 0xe7d3fbc8;
    0x21e1cde6; 0xc33707d6; 0xf4d50d87; 0x455a14ed;
    0xa9e3e905; 0xfcefa3f8; 0x676f02d9; 0x8d2a4c8a;
    0xfffa3942; 0x8771f681; 0x6d9d6122; 0xfde5380c;
    0xa4beea44; 0x4bdecfa9; 0xf6bb4b60; 0xbebfbc70;
    0x289b7ec6; 0xeaa127fa; 0xd4ef3085; 0x04881d05;
    0xd9d4d039; 0xe6db99e5; 0x1fa27cf8; 0xc4ac5665;
    0xf4292244; 0x432aff97; 0xab9423a7; 0xfc93a039;
    0x655b59c3; 0x8f0ccc92; 0xffeff47d; 0x85845dd1;
    0x6fa87e4f; 0xfe2ce6e0; 0xa3014314; 0x4e0811a1;
    0xf7537e82; 0xbd3af235; 0x2ad7d2bb; 0xeb86d391 ].

(** Per-round left rotations. *)
Definition shift_amounts : list Z :=
  [ 7; 12; 17; 22; 7; 12; 17; 22; 7; 12; 17; 22; 7; 12; 17; 22;
    5;  9; 14; 20; 5;  9; 14; 20; 5;  9; 14; 20; 5;  9; 14; 20;
    4; 11; 16; 23; 4; 11; 16; 23; 4; 11; 16; 23; 4; 11; 16; 23;
    6; 10; 15; 21; 6; 10; 15; 21; 6; 10; 15; 21; 6; 10; 15; 21 ].

Definition bytes_of_string (s : string) : list Z :=
  map (fun c => Z.of_N (N_of_ascii c)) (list_ascii_of_string s).

(** [n] little-endian bytes of [x]. *)
Fixpoint le_bytes (n : nat) (x : Z) : list Z :=
  match n with
  | O => []
  | S n' => (x mod 256) :: le_bytes n' (x / 256)
  end.

Fixpoint le_word (bs : list Z) : Z :=
  match bs with
  | [] => 0
  | b :: bs' => b + 256 * le_word bs'
  end.

(** Message, one [0x80] byte, zeros up to 56 modulo 64, then the bit length
    on 64 bits, little-endian. *)
Definition pad (msg : list Z) : list Z :=
  let len := Z.of_nat (length msg) in
  let zeros := Z.to_nat ((55 - len) mod 64) in
  msg ++ [0x80] ++ repeat 0 zeros ++ le_bytes 8 ((8 * len) mod 2^64).

Fixpoint chunks (fuel : nat) (k : nat) (bs : list Z) : list (list Z) :=
  match fuel, bs with
  | O, _ | _, [] => []
  | S fuel', _ => firstn k bs :: chunks fuel' k (skipn k bs)
  end.

Definition words_of_block (block : list Z) : list Z :=
  map le_word (chunks 16 4 block).

Record regs := { rA : Z; rB : Z; rC : Z; rD : Z }.

Definition init : regs :=
  {| rA := 0x67452301; rB := 0xefcdab89; rC := 0x98badcfe; rD := 0x10325476 |}.

Definition round_mix (i : Z) (r : regs) : Z * Z :=
  let '(Build_regs _ b c d) := r in
  if i <? 16 then (Z.lor (Z.land b c) (Z.land (not32 b) d), i)
  else if i <? 32 then (Z.lor (Z.land d b) (Z.land (not32 d) c), (5 * i + 1) mod 16)
  else if i <? 48 then (Z.lxor (Z.lxor b c) d, (3 * i + 5) mod 16)
  else (Z.lxor c (Z.lor b (not32 d)), (7 * i) mod 16).

Definition step (M : list Z) (r : regs) (i : nat) : regs :=
  let '(f, g) := round_mix (Z.of_nat i) r in
  let f' := add32 (add32 (add32 f (rA r)) (nth i K 0)) (nth (Z.to_nat g) M 0) in
  {| rA := rD r; rD := rC r; rC := rB r;
     rB := add32 (rB r) (rotl32 f' (nth i shift_amounts 0)) |}.

Definition compress (h : regs) (block : list Z) : regs :=
  let r := fold_left (step (words_of_block block)) (seq 0 64) h in
  {| rA := add32 (rA h) (rA r); rB := add32 (rB h) (rB r);
     rC := add32 (rC h) (rC r); rD := add32 (rD h) (rD r) |}.

Definition digest (msg : list Z) : list Z :=
  let p := pad msg in
  let h := fold_left compress (chunks (length p) 64 p) init in
  le_bytes 4 (rA h) ++ le_bytes 4 (rB h) ++ le_bytes 4 (rC h) ++ le_bytes 4 (rD h).

Definition hex_digit (n : Z) : ascii :=
  nth (Z.to_nat n)
      (list_ascii_of_string "0123456789abcdef") "0"%char.

Fixpoint hex_of_bytes (bs : list Z) : string :=
  match bs with
  | [] => EmptyString
  | b :: bs' => String (hex_digit (b / 16)) (String (hex_digit (b mod 16)) (hex_of_bytes bs'))
  end.

(** [hashlib.md5(data).hexdigest()], [data] being the bytes of [s]. *)
Definition hexdigest (s : string) : string := hex_of_bytes (digest (bytes_of_string s)).

End MD5.


(** ** Strings *)

(** [not s] is false exactly on the empty string. *)
Definition truthy (s : string) : bool :=
  match s with EmptyString => false | String _ _ => true end.

(** [s.startswith(p)] *)
Definition startswith (s p : string) : bool := String.prefix p s.

(** [kw in text]: [kw] occurs at some position of [text]. *)
Fixpoint str_in (kw text : string) : bool :=
  String.prefix kw text ||
  match text with
  | EmptyString => false
  | String _ text' => str_in kw text'
  end.

(** Bytes [10xxxxxx] continue the character begun by an earlier byte. *)
Definition is_continuation (c : ascii) : bool :=
  let n := N_of_ascii c in (128 <=? n)%N && (n <? 192)%N.

(** [s[:n]], [n] counted in characters. *)
Fixpoint take_chars (n : nat) (s : string) : string :=
  match s with
  | EmptyString => EmptyString
  | String c s' =>
      if is_continuation c then String c (take_chars n s')
      else match n with
           | O => EmptyString
           | S n' => String c (take_chars n' s')
           end
  end.

(** [str(n)] for a length. *)
Definition str_of_nat (n : nat) : string := NilZero.string_of_uint (Nat.to_uint n).

(** [l[-n:]] for a count [n >= 0]: the last [n] items, and the whole list
    when [n = 0] (as [-0 = 0]) or when the list is shorter. *)
Definition slice_from_end {A} (n : nat) (l : list A) : list A :=
  match n with
  | O => l
  | S _ => drop (length l - n) l
  end.

(** ** config.py *)

Definition TARGET_URL : string := "https://hrss.qingdao.gov.cn/ztzl_47/zcpd_47/tzgg_47/".
Definition check_interval : Z := 1200.
Definition max_announcements : nat := 50.
Definition windows_notification_enabled : bool := true.

(** ** Data model *)

(** An [<a href=...>] element as the parser reads it: [link.get('href')] and
    [link.get_text(strip=True)]. *)
Record anchor := { href : string; text : string }.

(** The dictionary built for one announcement. *)
Record announcement := {
  ann_id : string;
  title : string;
  url : string;
  scraped_at : string;
  is_new : bool
}.

(** The dictionary of the data file.  Only ['announcements'] is ever read,
    with a default, so only that key may be missing. *)
Record store_dict := {
  announcements : option (list announcement);
  last_check : string;
  total_count : Z
}.

(** What [json.load] can return: a dictionary of the shape [save_data]
    writes, or a JSON value that is no dictionary (a list, a number, ...).
    A dictionary of another shape, on whose ['announcements'] entry the
    program raises [TypeError] or [KeyError], is outside the model: what is
    stated below for a data file is stated for these two kinds. *)
Inductive pyobject :=
| Dict (d : store_dict)
| NonDict.

(** The data file on disk: missing, present but failing [open] or
    [json.load], or holding a JSON value. *)
Inductive file_state :=
| Absent
| Undecodable
| Stored (v : pyobject).

(** The result of [session.get]: a response, or a transport failure
    (a [RequestException]). *)
Inductive http_result :=
| Response (status_code : Z) (body : string)
| ConnectionError.

(** How the write of [save_data] ends: done; failing in [os.makedirs] or
    [open] (file untouched); failing after [open(..., 'w')] truncated it. *)
Inductive write_outcome :=
| WriteOk
| WriteRefused
| WriteTorn.

(** What one iteration of the daemon meets. *)
Record cycle_input := {
  ci_http : http_result;
  ci_disk : write_outcome;
  ci_interrupt : bool   (* Ctrl+C arrives during the call of time.sleep this
                           iteration makes: the wait after the cycle, or the
                           back-off sleep of an except clause *)
}.

Record world := {
  w_file : file_state;                  (* data/announcements.json *)
  w_ticks : nat;                        (* readings of the clock so far *)
  w_delivered : list (string * string); (* calls of notification.notify *)
  w_slept : list Z                      (* calls of time.sleep, in seconds *)
}.

Definition set_file (f : file_state) (w : world) : world :=
  {| w_file := f; w_ticks := w_ticks w; w_delivered := w_delivered w; w_slept := w_slept w |}.

(** ** Exceptions and the monad of the program *)

Inductive exception :=
| KeyboardInterrupt
| RequestException
| AttributeError.

Inductive outcome (A : Type) :=
| Return (a : A)
| Raise (e : exception).
Arguments Return {A} a.
Arguments Raise {A} e.

Definition py (A : Type) : Type := world -> outcome A * world.

Definition ret {A} (a : A) : py A := fun w => (Return a, w).

Definition raise {A} (e : exception) : py A := fun w => (Raise e, w).

Definition bind {A B} (m : py A) (k : A -> py B) : py B :=
  fun w => match m w with
           | (Return a, w') => k a w'
           | (Raise e, w') => (Raise e, w')
           end.

Notation "'let*' x ':=' m 'in' k" := (bind m (fun x => k))
  (at level 10, x name, m at level 100, k at level 200).

Definition lift {A} (o : outcome A) : py A := fun w => (o, w).

(** [time.sleep(seconds)] *)
Definition sleep (seconds : Z) : py unit :=
  fun w => (Return tt,
            {| w_file := w_file w; w_ticks := w_ticks w;
               w_delivered := w_delivered w; w_slept := w_slept w ++ [seconds] |}).

(** ** scraper.py: the pure helpers *)

Definition keywords : list string :=
  ["通知"; "公告"; "关于"; "职称"; "评审"; "报送"].

Definition is_announcement_link (text href : string) : bool :=
  if negb (truthy text) || negb (truthy href) then false
  else existsb (fun keyword => str_in keyword text) keywords.

Definition generate_id (title url : string) : string :=
  let content := title ++ "_" ++ url in
  String.substring 0 16 (MD5.hexdigest content).

Definition get_full_url (href : string) : string :=
  if startswith href "http" then href
  else if startswith href "/" then "https://hrss.qingdao.gov.cn" ++ href
  else "https://hrss.qingdao.gov.cn/ztzl_47/zcpd_47/tzgg_47/" ++ href.

(** [response.raise_for_status()] raises on the 4xx and 5xx codes; the
    [except RequestException] clause turns every failure into [None]. *)
Definition fetch_page_content (r : http_result) : option string :=
  match r with
  | ConnectionError => None
  | Response status_code body =>
      if (400 <=? status_code) && (status_code <? 600) then None else Some body
  end.

Definition empty_store : store_dict :=
  {| announcements := Some []; last_check := ""; total_count := 0 |}.

(** [d.get('announcements', [])] on a dictionary. *)
Definition get_announcements (d : store_dict) : list announcement :=
  default [] (announcements d).

(** [existing_data.get('announcements', [])]: the method exists on
    dictionaries only. *)
Definition dict_get_announcements (existing_data : pyobject) : outcome (list announcement) :=
  match existing_data with
  | Dict d => Return (get_announcements d)
  | NonDict => Raise AttributeError
  end.

(** The loop of [detect_new_announcements]. *)
Fixpoint detect_loop (existing_ids : gset string) (current new_announcements : list announcement)
  : list announcement :=
  match current with
  | [] => new_announcements
  | announcement :: rest =>
      if decide (ann_id announcement ∉ existing_ids)
      then detect_loop existing_ids rest (new_announcements ++ [announcement])
      else detect_loop existing_ids rest new_announcements
  end.

Definition detect_new_announcements (current_announcements : list announcement)
    (existing_data : pyobject) : outcome (list announcement) :=
  match dict_get_announcements existing_data with
  | Raise e => Raise e
  | Return stored =>
      let existing_ids : gset string := list_to_set (ann_id <$> stored) in
      Return (detect_loop existing_ids current_announcements [])
  end.

Definition load_existing_data : py pyobject :=
  fun w => match w_file w with
           | Stored v => (Return v, w)
           | Undecodable | Absent => (Return (Dict empty_store), w)
           end.

Definition save_data (disk : write_outcome) (data : store_dict) : py unit :=
  fun w => match disk with
           | WriteOk => (Return tt, set_file (Stored (Dict data)) w)
           | WriteRefused => (Return tt, w)
           | WriteTorn => (Return tt, set_file Undecodable w)
           end.

(** ** The program over its oracles *)

Section Program.

(** [datetime.now().strftime(date_format)] at the n-th reading of the clock. *)
Variable clock : nat -> string.

(** [BeautifulSoup(html_content, 'lxml').find_all('a', href=True)], each
    element read through [get('href')] and [get_text(strip=True)]; [None]
    when the library raises. *)
Variable find_all_links : string -> option (list anchor).

(** [platform.system()] *)
Variable platform_system : string.

(** Whether the n-th call of [notification.notify] returns ([true]) or
    raises ([false]). *)
Variable plyer_ok : nat -> bool.

Definition strftime_now : py string :=
  fun w => (Return (clock (w_ticks w)),
            {| w_file := w_file w; w_ticks := S (w_ticks w);
               w_delivered := w_delivered w; w_slept := w_slept w |}).

(** *** utils/notifier.py *)

Definition send_windows_notification (title message : string) : py bool :=
  if negb windows_notification_enabled then ret false
  else if negb (String.eqb platform_system "Windows") then ret false
  else fun w =>
         (Return (plyer_ok (length (w_delivered w))),
          {| w_file := w_file w; w_ticks := w_ticks w;
             w_delivered := w_delivered w ++ [(title, message)];
             w_slept := w_slept w |}).

Definition send_notification (announcements : list announcement) : py bool :=
  match announcements with
  | [] => ret false
  | first :: _ =>
      let message :=
        if (length announcements =? 1)%nat then take_chars 100 (title first)
        else "发现" ++ str_of_nat (length announcements) ++ "条新通知，请查看日志获取详情" in
      let title := "青岛人社局新通知 (" ++ str_of_nat (length announcements) ++ "条)" in
      send_windows_notification title message
  end.

(** *** scraper.py *)

(** The loop of [parse_announcements] over the links found. *)
Fixpoint parse_loop (links : list anchor) (announcements : list announcement)
  : py (list announcement) :=
  match links with
  | [] => ret announcements
  | link :: links' =>
      if is_announcement_link (text link) (href link) then
        let* now := strftime_now in
        parse_loop links'
          (announcements ++
           [ {| ann_id := generate_id (text link) (href link);
                title := text link;
                url := get_full_url (href link);
                scraped_at := now;
                is_new := true |} ])
      else parse_loop links' announcements
  end.

Definition parse_announcements (html_content : string) : py (list announcement) :=
  match find_all_links html_content with
  | Some links => parse_loop links []
  | None => ret []
  end.

Definition notify_new_announcements (new_announcements : list announcement) : py unit :=
  match new_announcements with
  | [] => ret tt
  | _ :: _ => let* _ := send_notification new_announcements in ret tt
  end.

Definition run_once (ci : cycle_input) : py unit :=
  match fetch_page_content (ci_http ci) with
  | None => ret tt
  | Some html_content =>
      if negb (truthy html_content) then ret tt
      else
        let* current_announcements := parse_announcements html_content in
        let* existing_data := load_existing_data in
        let* new_announcements := lift (detect_new_announcements current_announcements existing_data) in
        let* _ := notify_new_announcements new_announcements in
        let* stored := lift (dict_get_announcements existing_data) in
        let all_announcements := (stored ++ new_announcements)%list in
        let max_count := max_announcements in
        let all_announcements :=
          if (max_count <? length all_announcements)%nat
          then slice_from_end max_count all_announcements
          else all_announcements in
        let* now := strftime_now in
        save_data (ci_disk ci)
          {| announcements := Some all_announcements;
             last_check := now;
             total_count := Z.of_nat (length all_announcements) |}
  end.

Inductive exit_reason :=
| Cancelled       (* KeyboardInterrupt, caught by its except clause *)
| NetworkErrors   (* the ceiling, reached in the RequestException clause *)
| RuntimeErrors   (* the ceiling, reached in the Exception clause *)
| Interrupted.    (* KeyboardInterrupt raised by the sleep of an except
                     clause: no clause catches it and it ends run_daemon *)

(** Where the loop is after a finite run of iterations. *)
Inductive loop_state :=
| Looping (error_count : Z)
| Stopped (why : exit_reason).

Definition max_errors : Z := 5.

(** The body of the [try]: one cycle, then the call of [time.sleep] until
    the next one, which Ctrl+C ends with a [KeyboardInterrupt]. *)
Definition try_body (ci : cycle_input) : py unit :=
  let* _ := run_once ci in
  let* _ := sleep check_interval in
  if ci_interrupt ci then raise KeyboardInterrupt else ret tt.

(** [while True], run on the iterations listed in [inputs]. *)
Fixpoint daemon_loop (inputs : list cycle_input) (error_count : Z) (w : world)
  : loop_state * world :=
  match inputs with
  | [] => (Looping error_count, w)
  | ci :: inputs' =>
      match try_body ci w with
      | (Return _, w1) => daemon_loop inputs' 0 w1
      | (Raise KeyboardInterrupt, w1) =>
          let '(_, w2) := send_windows_notification "青岛人社局通知监控" "监控系统已停止" w1 in
          (Stopped Cancelled, w2)
      | (Raise RequestException, w1) =>
          let error_count := error_count + 1 in
          if error_count >=? max_errors then (Stopped NetworkErrors, w1)
          else
            let '(_, w2) := sleep (Z.min 300 (60 * error_count)) w1 in
            if ci_interrupt ci then (Stopped Interrupted, w2)
            else daemon_loop inputs' error_count w2
      | (Raise _, w1) =>
          let error_count := error_count + 1 in
          if error_count >=? max_errors then (Stopped RuntimeErrors, w1)
          else
            let '(_, w2) := sleep 60 w1 in
            if ci_interrupt ci then (Stopped Interrupted, w2)
            else daemon_loop inputs' error_count w2
      end
  end.

Definition run_daemon (inputs : list cycle_input) (w : world) : loop_state * world :=
  let '(_, w0) := send_windows_notification "青岛人社局通知监控" "监控系统已启动，将定期检查新通知" w in
  daemon_loop inputs 0 w0.

End Program.

(** ** The vocabulary of the design document *)

(** A text mentions a keyword when a keyword of the fixed set occurs in it,
    character for character. *)
Definition mentions_keyword (text : string) : Prop :=
  exists keyword, keyword ∈ keywords /\ exists pre post, text = pre ++ keyword ++ post.

(** An anchor is an announcement candidate when its href and its visible
    text are non-empty and the text mentions a keyword. *)
Definition is_candidate (a : anchor) : Prop :=
  href a <> "" /\ text a <> "" /\ mentions_keyword (text a).

(** Markup in which an anchor is opened and never closed is malformed. *)
Definition unclosed_anchor (markup : string) : Prop :=
  str_in "<a " markup = true /\ str_in "</a>" markup = false.

(** The site origin and the path of the listing page. *)
Definition site_origin : string := "https://hrss.qingdao.gov.cn".
Definition listing_path : string := TARGET_URL.

(** An absolute URL of the web: it names the [http] or the [https] scheme. *)
Definition is_absolute_url (href : string) : bool :=
  startswith href "http://" || startswith href "https://".

(** The fingerprint the design document describes: the first 16 hexadecimal
    characters of the MD5 of [title + "_" + url]. *)
Definition fingerprint (title url : string) : string :=
  String.substring 0 16 (MD5.hexdigest (title ++ "_" ++ url)).

(** The world after [n] more readings of the clock. *)
Definition advance (n : nat) (w : world) : world :=
  {| w_file := w_file w; w_ticks := n + w_ticks w;
     w_delivered := w_delivered w; w_slept := w_slept w |}.

(** The records [parse_loop] appends, the clock having been read [t] times. *)
Fixpoint records_of (clock : nat -> string) (t : nat) (links : list anchor) : list announcement :=
  match links with
  | [] => []
  | link :: links' =>
      if is_announcement_link (text link) (href link) then
        {| ann_id := generate_id (text link) (href link);
           title := text link;
           url := get_full_url (href link);
           scraped_at := clock t;
           is_new := true |} :: records_of clock (S t) links'
      else records_of clock t links'
  end.

(** The eviction step of [run_once], as a function of the appended list. *)
Definition retained (all_announcements : list announcement) : list announcement :=
  if (max_announcements <? length all_announcements)%nat
  then slice_from_end max_announcements all_announcements
  else all_announcements.

(** The world after the sleeps listed in [seconds]. *)
Definition slept_more (seconds : list Z) (w : world) : world :=
  {| w_file := w_file w; w_ticks := w_ticks w;
     w_delivered := w_delivered w; w_slept := w_slept w ++ seconds |}.

(** *** Concrete pages and oracles, for the examples *)

Definition fixed_clock : nat -> string := fun _ => "2025-01-20 16:06:00".

Definition relative_notice : anchor := {| href := "/a.html"; text := "关于XX通知" |}.
Definition absolute_notice : anchor :=
  {| href := "https://hrss.qingdao.gov.cn/a.html"; text := "关于XX通知" |}.
Definition unrelated_link : anchor := {| href := "/b.html"; text := "不相关链接" |}.

(** An HTML library that finds the given anchors in every page. *)
Definition page_with (links : list anchor) : string -> option (list anchor) :=
  fun _ => Some links.

Definition fresh_world : world :=
  {| w_file := Absent; w_ticks := 0; w_delivered := []; w_slept := [] |}.

Definition always_ok : nat -> bool := fun _ => true.

(** A cycle that fetches [html] with status 200 and writes without fault. *)
Definition fetched (html : string) : cycle_input :=
  {| ci_http := Response 200 html; ci_disk := WriteOk; ci_interrupt := false |}.

(** A cycle during which the site cannot be reached. *)
Definition network_down : cycle_input :=
  {| ci_http := ConnectionError; ci_disk := WriteOk; ci_interrupt := false |}.

(** A store filled to the cap with fifty older records, numbered from 0. *)
Definition old_notice (n : nat) : announcement :=
  {| ann_id := str_of_nat n; title := "公告" ++ str_of_nat n;
     url := "https://hrss.qingdao.gov.cn/" ++ str_of_nat n ++ ".html";
     scraped_at := "2025-01-19 08:00:00"; is_new := true |}.

Definition full_store : store_dict :=
  {| announcements := Some (map old_notice (seq 0 50));
     last_check := "2025-01-19 08:00:00"; total_count := 50 |}.

Definition full_world : world :=
  {| w_file := Stored (Dict full_store); w_ticks := 0; w_delivered := []; w_slept := [] |}.

Definition notice_page : string := "<a href='/a.html'>关于XX通知</a><a href='/b.html'>不相关链接</a>".

(** A truncated page: its one anchor is never closed.  The HTML library
    repairs it and finds the anchor. *)
Definition unclosed_page : string := "<a href='/a.html'>关于XX通知".

Definition twice_page : string := "<a href='/a.html'>关于XX通知</a><a href='/a.html'>关于XX通知</a>".

(** A world whose data file holds a JSON list instead of a dictionary. *)
Definition list_file_world : world :=
  {| w_file := Stored NonDict; w_ticks := 0; w_delivered := []; w_slept := [] |}.

(** ** startup_check.py *)

(** What the self-check meets.  Its [silent] flag selects log lines only and
    is left out with the log. *)
Record startup_env := {
  version_info : Z * Z;          (* sys.version_info: major, minor *)
  importable : string -> bool;   (* __import__(name) succeeds *)
  mkdir_ok : string -> bool;     (* Path(name).mkdir(exist_ok=True) succeeds *)
  origin_response : http_result; (* requests.get("https://hrss.qingdao.gov.cn", timeout=10) *)
  notifier_importable : bool     (* from utils.notifier import MessageNotifier; MessageNotifier() *)
}.

(** How a check ends: it returns [True], returns [False], or raises. *)
Inductive check_outcome :=
| CheckTrue
| CheckFalse
| CheckRaised.

Definition check_python_version (env : startup_env) : check_outcome :=
  let '(major, minor) := version_info env in
  if (major <? 3) || ((major =? 3) && (minor <? 8)) then CheckFalse else CheckTrue.

Definition check_platform (platform_system : string) : check_outcome := CheckTrue.

Definition required_packages : list (string * string) :=
  [("requests", "requests"); ("beautifulsoup4", "bs4"); ("lxml", "lxml"); ("plyer", "plyer")].

(** The loop of [check_dependencies]. *)
Fixpoint missing_loop (env : startup_env) (packages : list (string * string))
    (missing_packages : list string) : list string :=
  match packages with
  | [] => missing_packages
  | (package_name, import_name) :: rest =>
      if importable env import_name then missing_loop env rest missing_packages
      else missing_loop env rest (missing_packages ++ [package_name])
  end.

Definition check_dependencies (env : startup_env) : check_outcome :=
  match missing_loop env required_packages [] with
  | [] => CheckTrue
  | _ :: _ => CheckFalse
  end.

Definition required_dirs : list string := ["data"; "logs"; "utils"].

(** The loop of [check_directories] over the set of names for which
    [Path(name).exists()] holds, of whatever kind: a regular file named
    [data] exists as well as a directory does. *)
Fixpoint directories_loop (env : startup_env) (dirs : list string) (paths : gset string)
  : check_outcome * gset string :=
  match dirs with
  | [] => (CheckTrue, paths)
  | dir_name :: rest =>
      if decide (dir_name ∈ paths) then directories_loop env rest paths
      else if mkdir_ok env dir_name then directories_loop env rest ({[dir_name]} ∪ paths)
      else (CheckRaised, paths)
  end.

Definition check_directories (env : startup_env) (paths : gset string)
  : check_outcome * gset string :=
  directories_loop env required_dirs paths.

Definition config_files : list string :=
  ["config.py"; "scraper.py"; "utils/notifier.py"; "utils/__init__.py"].

(** The loop of [check_config_files]: the first missing file ends it. *)
Fixpoint config_files_loop (files : list string) (paths : gset string) : check_outcome :=
  match files with
  | [] => CheckTrue
  | file_name :: rest =>
      if decide (file_name ∈ paths) then config_files_loop rest paths else CheckFalse
  end.

Definition check_config_files (paths : gset string) : check_outcome :=
  config_files_loop config_files paths.

(** Every exception, the [ImportError] of [import requests] included, is
    caught and gives [False]. *)
Definition check_network_connectivity (env : startup_env) : check_outcome :=
  if negb (importable env "requests") then CheckFalse
  else match origin_response env with
       | ConnectionError => CheckFalse
       | Response status_code _ => if status_code =? 200 then CheckTrue else CheckFalse
       end.

Section Startup.

Variable clock : nat -> string.
Variable find_all_links : string -> option (list anchor).
Variable platform_system : string.
Variable plyer_ok : nat -> bool.

Definition test_notification (env : startup_env) : py check_outcome :=
  if negb (notifier_importable env) then ret CheckFalse
  else
    let* success := send_windows_notification platform_system plyer_ok
                      "青岛人社局通知监控" "系统自检完成，通知功能正常" in
    ret CheckTrue.

(** One turn of the loop of [run_startup_check]: a check that returns
    [False] or raises has its name appended. *)
Definition record_check (check_name : string) (result : check_outcome)
    (failed_checks : list string) : list string :=
  match result with
  | CheckTrue => failed_checks
  | CheckFalse | CheckRaised => failed_checks ++ [check_name]
  end.

(** [run_startup_check]: the names of the failed checks, the paths and the
    world after the seven checks; the function returns [True] when no name
    was recorded. *)
Definition startup_checks (env : startup_env) (paths : gset string) (w : world)
  : list string * gset string * world :=
  let failed_checks := [] in
  let failed_checks := record_check "Python版本" (check_python_version env) failed_checks in
  let failed_checks := record_check "操作系统" (check_platform platform_system) failed_checks in
  let failed_checks := record_check "依赖包" (check_dependencies env) failed_checks in
  let '(directories, paths) := check_directories env paths in
  let failed_checks := record_check "目录结构" directories failed_checks in
  let failed_checks := record_check "配置文件" (check_config_files paths) failed_checks in
  let failed_checks := record_check "网络连接" (check_network_connectivity env) failed_checks in
  match test_notification env w with
  | (Return notified, w') => (record_check "通知功能" notified failed_checks, paths, w')
  | (Raise _, w') => (record_check "通知功能" CheckRaised failed_checks, paths, w')
  end.

Definition run_startup_check (env : startup_env) (paths : gset string) (w : world)
  : bool * gset string * world :=
  let '(failed_checks, paths', w') := startup_checks env paths w in
  (match failed_checks with [] => true | _ :: _ => false end, paths', w').

(** How [main] ends. *)
Inductive main_result :=
| SelfCheckFailed                 (* returned before the scraper was built *)
| RanOnce (o : outcome unit)      (* [run_once] returned, or raised through [main] *)
| RanDaemon (st : loop_state).    (* [run_daemon], as far as the iterations listed *)

(** [main], with the two flags of the command line; [ci] is what the first
    cycle meets and [later] what the following iterations of the daemon
    meet. *)
Definition main (env : startup_env) (daemon once : bool) (ci : cycle_input)
    (later : list cycle_input) (paths : gset string) (w : world)
  : main_result * gset string * world :=
  let '(passed, paths', w') := run_startup_check env paths w in
  if negb passed then (SelfCheckFailed, paths', w')
  else if daemon then
    let '(st, w'') := run_daemon clock find_all_links platform_system plyer_ok (ci :: later) w' in
    (RanDaemon st, paths', w'')
  else
    let '(o, w'') := run_once clock find_all_links platform_system plyer_ok ci w' in
    (RanOnce o, paths', w'').

End Startup.

(** ** More vocabulary *)

(** [len(s)] of a text: the bytes that begin a character. *)
Fixpoint char_count (s : string) : nat :=
  match s with
  | EmptyString => O
  | String c s' => if is_continuation c then char_count s' else S (char_count s')
  end.

Definition hex_alphabet : list ascii := list_ascii_of_string "0123456789abcdef".

(** The world after one more call of the delivery back end. *)
Definition delivered_more (call : string * string) (w : world) : world :=
  {| w_file := w_file w; w_ticks := w_ticks w;
     w_delivered := w_delivered w ++ [call]; w_slept := w_slept w |}.

(** The identifiers and resolved urls of the candidates of a page, which do
    not depend on the clock. *)
Definition candidate_ids (links : list anchor) : list string :=
  (fun a => generate_id (text a) (href a)) <$>
    filter (fun a => is_announcement_link (text a) (href a) = true) links.

(** The dictionary [load_existing_data] finds, when it finds one. *)
Definition loaded_dict (f : file_state) : option store_dict :=
  match f with
  | Stored (Dict d) => Some d
  | Stored NonDict => None
  | Undecodable | Absent => Some empty_store
  end.

(** The world after one more reading of the clock. *)
Definition ticked (w : world) : world :=
  {| w_file := w_file w; w_ticks := S (w_ticks w);
     w_delivered := w_delivered w; w_slept := w_slept w |}.

(** A cycle that fetches [html] and is interrupted during the wait. *)
Definition interrupted (html : string) : cycle_input :=
  {| ci_http := Response 200 html; ci_disk := WriteOk; ci_interrupt := true |}.

(** A self-check environment in which everything is in order. *)
Definition healthy_env : startup_env :=
  {| version_info := (3, 11); importable := fun _ => true; mkdir_ok := fun _ => true;
     origin_response := Response 200 "<html></html>"; notifier_importable := true |}.

(** The same environment with the site origin out of reach. *)
Definition offline_env : startup_env :=
  {| version_info := (3, 11); importable := fun _ => true; mkdir_ok := fun _ => true;
     origin_response := ConnectionError; notifier_importable := true |}.

Definition project_paths : gset string :=
  list_to_set ["config.py"; "scraper.py"; "utils"; "utils/notifier.py"; "utils/__init__.py"].

(** ** Facts about the string helpers *)

Lemma prefix_iff_app (p s : string) :
  String.prefix p s = true <-> exists post, s = p ++ post.
Proof.
  revert s; induction p as [|c p IH]; intros s.
  - split; [intros _; exists s; reflexivity | intros _; destruct s; reflexivity].
  - destruct s as [|d s]; simpl.
    + split; [discriminate | intros [post H]; discriminate].
    + destruct (ascii_dec c d) as [->|Hne].
      * rewrite IH. split; intros [post H]; exists post; simpl in *; congruence.
      * split; [discriminate | intros [post H]; simpl in H; congruence].
Qed.

Lemma str_in_iff_infix (kw text : string) :
  str_in kw text = true <-> exists pre post, text = pre ++ kw ++ post.
Proof.
  induction text as [|c text IH].
  - change (str_in kw "") with (String.prefix kw "" || false).
    rewrite orb_false_r, prefix_iff_app. split.
    + intros [post H]. exists "", post. exact H.
    + intros [pre [post H]]. destruct pre; [exists post; exact H|discriminate].
  - change (str_in kw (String c text))
      with (String.prefix kw (String c text) || str_in kw text).
    rewrite orb_true_iff, prefix_iff_app, IH. split.
    + intros [[post H]|[pre [post H]]].
      * exists "", post. exact H.
      * exists (String c pre), post. simpl. congruence.
    + intros [pre [post H]]. destruct pre as [|d pre]; simpl in H.
      * left. exists post. exact H.
      * right. exists pre, post. congruence.
Qed.

Lemma truthy_iff (s : string) : truthy s = true <-> s <> "".
Proof. destruct s; simpl; split; congruence. Qed.

(** ** The parser *)

Section ParserProperties.

Variable clock : nat -> string.
Variable find_all_links : string -> option (list anchor).

Lemma advance_0 w : advance 0 w = w.
Proof. destruct w; reflexivity. Qed.

Lemma parse_loop_records links : forall acc w,
  parse_loop clock links acc w =
    (Return (acc ++ records_of clock (w_ticks w) links)%list,
     advance (length (records_of clock (w_ticks w) links)) w).
Proof.
  induction links as [|link links IH]; intros acc w; simpl.
  - rewrite app_nil_r, advance_0. reflexivity.
  - destruct (is_announcement_link (text link) (href link)); [|apply IH].
    unfold bind, strftime_now. rewrite IH. simpl.
    rewrite <- app_assoc. unfold advance; simpl.
    do 2 f_equal. f_equal. lia.
Qed.

Lemma parse_announcements_records html w :
  let links := default [] (find_all_links html) in
  parse_announcements clock find_all_links html w =
    (Return (records_of clock (w_ticks w) links),
     advance (length (records_of clock (w_ticks w) links)) w).
Proof.
  unfold parse_announcements. destruct (find_all_links html) as [links|]; simpl.
  - apply parse_loop_records.
  - unfold ret. rewrite advance_0. reflexivity.
Qed.

Lemma records_of_fields t links :
  (fun r => (title r, url r)) <$> records_of clock t links =
  (fun a => (text a, get_full_url (href a))) <$>
    filter (fun a => is_announcement_link (text a) (href a) = true) links.
Proof.
  revert t; induction links as [|a links IH]; intros t; simpl; [reflexivity|].
  rewrite filter_cons.
  destruct (is_announcement_link (text a) (href a)) eqn:E.
  - rewrite decide_True by reflexivity. simpl. rewrite IH. reflexivity.
  - rewrite decide_False by discriminate. apply IH.
Qed.

Lemma is_announcement_link_iff (a : anchor) :
  is_announcement_link (text a) (href a) = true <-> is_candidate a.
Proof.
  unfold is_announcement_link, is_candidate, mentions_keyword.
  destruct (truthy (text a)) eqn:Et, (truthy (href a)) eqn:Eh; cbn [negb orb].
  - rewrite existsb_exists.
    apply truthy_iff in Et, Eh. split.
    + intros [kw [Hin Hkw]]. repeat split; try assumption.
      exists kw. split; [apply list_elem_of_In, Hin | apply str_in_iff_infix, Hkw].
    + intros (_ & _ & kw & Hin & Hkw).
      exists kw. split; [apply list_elem_of_In, Hin | apply str_in_iff_infix, Hkw].
  - split; [discriminate|]. intros (Hh & _ & _).
    destruct (href a); [congruence | discriminate].
  - split; [discriminate|]. intros (_ & Ht & _).
    destruct (text a); [congruence | discriminate].
  - split; [discriminate|]. intros (_ & Ht & _).
    destruct (text a); [congruence | discriminate].
Qed.

(** C6, as the code has it.  For every markup, [parse_announcements] returns
    a list and never raises.  Its records are, in page order, those of the
    anchors the HTML library finds whose href and visible text are non-empty
    and whose text contains a keyword of the fixed set as a substring, and of
    no other anchor.  The list is empty when the library raises on the
    markup, or when no anchor qualifies; malformed markup that the library
    repairs is parsed like any other, and the anchors recovered from it
    yield their records. *)
Theorem parse_announcements_candidates html w :
  let links := default [] (find_all_links html) in
  exists anns w',
    parse_announcements clock find_all_links html w = (Return anns, w') /\
    (fun r => (title r, url r)) <$> anns =
      (fun a => (text a, get_full_url (href a))) <$>
        filter (fun a => is_announcement_link (text a) (href a) = true) links /\
    (forall a, is_announcement_link (text a) (href a) = true <-> is_candidate a) /\
    (find_all_links html = None -> anns = []) /\
    (Forall (fun a => ~ is_candidate a) links -> anns = []).
Proof.
  intros links. eexists _, _. split; [apply parse_announcements_records|].
  fold links. split; [apply records_of_fields|].
  split; [apply is_announcement_link_iff|]. split.
  - intros Hnone. subst links. rewrite Hnone. reflexivity.
  - intros Hno. generalize (w_ticks w).
    induction Hno as [|a l Ha _ IH]; intros t; simpl; [reflexivity|].
    destruct (is_announcement_link (text a) (href a)) eqn:E; [|apply IH].
    apply is_announcement_link_iff in E. contradiction.
Qed.

(** C1, as the code has it.  Every record [parse_announcements] returns comes
    from an anchor of the page, and its id is the first 16 hexadecimal
    characters of MD5(title + "_" + href), [href] being the anchor's
    attribute as written in the page, before resolution; the [url] field holds
    the resolved href.  The id is a function of the pair (title, href), and
    it is the fingerprint of (title, url) whenever href starts with "http",
    which resolution leaves unchanged. *)
Theorem parse_announcements_ids html w :
  let links := default [] (find_all_links html) in
  exists anns w',
    parse_announcements clock find_all_links html w = (Return anns, w') /\
    Forall (fun r => exists a,
              a ∈ links /\
              title r = text a /\
              url r = get_full_url (href a) /\
              ann_id r = fingerprint (title r) (href a) /\
              (startswith (href a) "http" = true ->
               ann_id r = fingerprint (title r) (url r))) anns.
Proof.
  intros links. eexists _, _. split; [apply parse_announcements_records|].
  fold links. generalize (w_ticks w). clearbody links.
  induction links as [|a links IH]; intros t; simpl; [constructor|].
  assert (Hweaken : forall l : list announcement,
    Forall (fun r => exists a0, a0 ∈ links /\ title r = text a0 /\
              url r = get_full_url (href a0) /\
              ann_id r = fingerprint (title r) (href a0) /\
              (startswith (href a0) "http" = true ->
               ann_id r = fingerprint (title r) (url r))) l ->
    Forall (fun r => exists a0, a0 ∈ a :: links /\ title r = text a0 /\
              url r = get_full_url (href a0) /\
              ann_id r = fingerprint (title r) (href a0) /\
              (startswith (href a0) "http" = true ->
               ann_id r = fingerprint (title r) (url r))) l).
  { intros l Hl. eapply Forall_impl; [exact Hl|].
    intros r (a0 & Hin & Hrest). exists a0. split; [right; exact Hin | exact Hrest]. }
  destruct (is_announcement_link (text a) (href a)); [|apply Hweaken, IH].
  constructor; [|apply Hweaken, IH].
  exists a. simpl. split; [left|]. repeat split.
  intros Hhttp. unfold get_full_url. rewrite Hhttp. reflexivity.
Qed.

End ParserProperties.

(** C1, as the design document has it, fails on a root-relative href: the id
    of the record is not the fingerprint of its title and resolved url; and
    two records with one title and one resolved url get two ids when the page
    writes the href once relative and once absolute. *)
Lemma parse_id_not_of_resolved_url :
  exists r1 r2 w',
    parse_announcements fixed_clock (page_with [relative_notice; absolute_notice])
      "<a href='/a.html'>关于XX通知</a><a href='https://hrss.qingdao.gov.cn/a.html'>关于XX通知</a>"
      fresh_world = (Return [r1; r2], w') /\
    url r1 = "https://hrss.qingdao.gov.cn/a.html" /\
    ann_id r1 = "1c01005ec4fc444a" /\
    fingerprint (title r1) (url r1) = "85eead45f269a294" /\
    ann_id r1 <> fingerprint (title r1) (url r1) /\
    title r1 = title r2 /\ url r1 = url r2 /\ ann_id r1 <> ann_id r2.
Proof.
  eexists _, _, _. split; [vm_compute; reflexivity|].
  vm_compute. repeat split; discriminate.
Qed.

(** C6, as the design document has it, fails on malformed markup that the
    HTML library repairs: the anchor of the truncated page is never closed,
    the library closes it and finds it, and the parser returns its record
    instead of the empty list. *)
Lemma parse_repaired_markup_not_empty :
  unclosed_anchor unclosed_page /\
  exists r w',
    parse_announcements fixed_clock (page_with [relative_notice]) unclosed_page fresh_world
      = (Return [r], w') /\
    title r = "关于XX通知" /\ url r = "https://hrss.qingdao.gov.cn/a.html".
Proof.
  split; [split; reflexivity|].
  eexists _, _. split; [vm_compute; reflexivity|]. split; reflexivity.
Qed.

(** ** URL resolution *)

Lemma startswith_http_of_absolute href :
  is_absolute_url href = true -> startswith href "http" = true.
Proof.
  unfold is_absolute_url, startswith. rewrite orb_true_iff, !prefix_iff_app.
  intros [[post ->]|[post ->]]; [exists ("://" ++ post) | exists ("s://" ++ post)];
    reflexivity.
Qed.

(** The three branches of [get_full_url], as they are written: the test of
    the first is [startswith('http')], which every absolute http or https
    URL passes, and which a relative href can pass too. *)
Theorem get_full_url_cases (href : string) :
  (startswith href "http" = true -> get_full_url href = href) /\
  (is_absolute_url href = true -> get_full_url href = href) /\
  (startswith href "http" = false -> startswith href "/" = true ->
   get_full_url href = site_origin ++ href) /\
  (startswith href "http" = false -> startswith href "/" = false ->
   get_full_url href = listing_path ++ href).
Proof.
  unfold get_full_url. repeat split.
  - intros ->. reflexivity.
  - intros H. rewrite (startswith_http_of_absolute _ H). reflexivity.
  - intros -> ->. reflexivity.
  - intros -> ->. reflexivity.
Qed.

Lemma get_full_url_cases_witness :
  get_full_url "https://hrss.qingdao.gov.cn/a.html" = "https://hrss.qingdao.gov.cn/a.html" /\
  get_full_url "/a.html" = "https://hrss.qingdao.gov.cn/a.html" /\
  get_full_url "a.html" = "https://hrss.qingdao.gov.cn/ztzl_47/zcpd_47/tzgg_47/a.html".
Proof.
  split; [|split].
  - apply (get_full_url_cases "https://hrss.qingdao.gov.cn/a.html"). reflexivity.
  - apply (get_full_url_cases "/a.html"); reflexivity.
  - apply (get_full_url_cases "a.html"); reflexivity.
Defined.

(** C7 fails on the code at a relative href whose file name begins with the
    letters "http".  Such an href is neither absolute nor root-relative, so
    the full URL is the path of the listing page followed by it; the test
    [startswith('http')] takes it for an absolute URL and [get_full_url]
    returns it unchanged, which is no full URL. *)
Lemma get_full_url_http_named_file :
  is_absolute_url "httpd.html" = false /\
  startswith "httpd.html" "/" = false /\
  get_full_url "httpd.html" = "httpd.html" /\
  get_full_url "httpd.html" <> listing_path ++ "httpd.html".
Proof. repeat split. vm_compute. discriminate. Qed.

(** ** The diff *)

Lemma detect_loop_filter (ids : gset string) (current : list announcement) :
  forall acc,
    detect_loop ids current acc = (acc ++ filter (fun r => ann_id r ∉ ids) current)%list.
Proof.
  induction current as [|r current IH]; intros acc; simpl.
  - rewrite app_nil_r. reflexivity.
  - rewrite filter_cons. destruct (decide (ann_id r ∉ ids)).
    + rewrite IH, <- app_assoc. reflexivity.
    + apply IH.
Qed.

Lemma detect_new_announcements_filter (current : list announcement) (d : store_dict) :
  detect_new_announcements current (Dict d) =
    Return (filter (fun r => ann_id r ∉ ann_id <$> get_announcements d) current).
Proof.
  unfold detect_new_announcements; simpl. rewrite detect_loop_filter; simpl.
  f_equal. apply list_filter_iff. intros r. rewrite elem_of_list_to_set. reflexivity.
Qed.

Lemma filter_unseen_nil (current stored : list announcement) :
  (forall r, r ∈ current -> ann_id r ∈ ann_id <$> stored) ->
  filter (fun r => ann_id r ∉ ann_id <$> stored) current = [].
Proof.
  induction current as [|r current IH]; intros Hall; [reflexivity|].
  rewrite filter_cons, decide_False.
  - apply IH. intros r' Hr'. apply Hall. right. exact Hr'.
  - intros Hnot. apply Hnot, Hall. left.
Qed.

(** C2.  For every current sequence [C] and stored state [existing], the diff
    returns exactly the records of [C] whose id is not the id of a stored
    record, in the order of [C]; against the empty store it returns [C]; and
    against a store holding the records of [C] it returns nothing.  The
    function reads its two arguments and touches nothing else: it is a
    function of them alone. *)
Theorem detect_new_announcements_spec (C : list announcement) (existing : store_dict) :
  detect_new_announcements C (Dict existing) =
    Return (filter (fun r => ann_id r ∉ ann_id <$> get_announcements existing) C) /\
  detect_new_announcements C (Dict empty_store) = Return C /\
  (forall lc n,
     detect_new_announcements C
       (Dict {| announcements := Some C; last_check := lc; total_count := n |}) = Return []).
Proof.
  split; [apply detect_new_announcements_filter|]. split.
  - rewrite detect_new_announcements_filter. f_equal.
    induction C as [|r C IH]; [reflexivity|].
    rewrite filter_cons, decide_True by (simpl; apply not_elem_of_nil).
    f_equal. exact IH.
  - intros lc n. rewrite detect_new_announcements_filter. f_equal.
    unfold get_announcements; simpl.
    apply filter_unseen_nil. intros r Hr.
    apply list_elem_of_fmap. exists r. split; [reflexivity | exact Hr].
Qed.

(** ** The store *)

(** C8.  [load_existing_data] never raises and leaves the world as it is.
    When the data file is missing, or is there but cannot be opened or
    deserialised, it returns the fresh dictionary with no announcement, an
    empty [last_check] and a [total_count] of 0; otherwise it returns what
    the file deserialises to. *)
Theorem load_existing_data_total (w : world) :
  exists v,
    load_existing_data w = (Return v, w) /\
    (w_file w = Absent \/ w_file w = Undecodable ->
     v = Dict {| announcements := Some []; last_check := ""; total_count := 0 |}) /\
    (forall stored, w_file w = Stored stored -> v = stored).
Proof.
  unfold load_existing_data.
  destruct (w_file w) as [| |stored]; eexists; (split; [reflexivity|]); split;
    try reflexivity; try congruence.
  - intros [H|H]; discriminate.
Qed.

(** ** The notifier *)

Section NotifierProperties.

Variable platform_system : string.
Variable plyer_ok : nat -> bool.

(** C9.  On the empty sequence [send_notification] returns false and leaves
    the world as it is: no call of the delivery back end is made, whatever
    the platform and the back end are.  It returns normally, without
    raising. *)
Theorem send_notification_nil (w : world) :
  send_notification platform_system plyer_ok [] w = (Return false, w) /\
  w_delivered (snd (send_notification platform_system plyer_ok [] w)) = w_delivered w.
Proof. split; reflexivity. Qed.

Lemma send_windows_notification_returns title message w :
  exists b w',
    send_windows_notification platform_system plyer_ok title message w = (Return b, w') /\
    w_file w' = w_file w /\ w_ticks w' = w_ticks w /\ w_slept w' = w_slept w.
Proof.
  unfold send_windows_notification.
  destruct (negb windows_notification_enabled); [eexists _, _; repeat split|].
  destruct (negb (platform_system =? "Windows")%string); eexists _, _; repeat split.
Qed.

Lemma notify_new_announcements_returns new_announcements w :
  exists w',
    notify_new_announcements platform_system plyer_ok new_announcements w = (Return tt, w') /\
    w_file w' = w_file w /\ w_ticks w' = w_ticks w /\ w_slept w' = w_slept w.
Proof.
  destruct new_announcements as [|first rest]; [exists w; repeat split|].
  unfold notify_new_announcements, send_notification, bind.
  match goal with
  | |- context [send_windows_notification _ _ ?t ?m w] =>
      destruct (send_windows_notification_returns t m w) as (b & w' & -> & Hw)
  end.
  exists w'. split; [reflexivity | exact Hw].
Qed.

End NotifierProperties.

(** ** One cycle *)

Section CycleProperties.

Variable clock : nat -> string.
Variable find_all_links : string -> option (list anchor).
Variable platform_system : string.
Variable plyer_ok : nat -> bool.

Lemma load_existing_data_file (w1 w2 : world) v :
  fst (load_existing_data w1) = Return v ->
  w_file w2 = w_file w1 ->
  load_existing_data w2 = (Return v, w2).
Proof.
  unfold load_existing_data. intros H ->.
  destruct (w_file w1); simpl in H; congruence.
Qed.

Lemma run_once_saves ci w html d :
  fetch_page_content (ci_http ci) = Some html ->
  html <> "" ->
  fst (load_existing_data w) = Return (Dict d) ->
  ci_disk ci = WriteOk ->
  let current := records_of clock (w_ticks w) (default [] (find_all_links html)) in
  let new_announcements :=
    filter (fun r => ann_id r ∉ ann_id <$> get_announcements d) current in
  let kept := retained (get_announcements d ++ new_announcements) in
  exists w' lc,
    run_once clock find_all_links platform_system plyer_ok ci w = (Return tt, w') /\
    w_file w' =
      Stored (Dict {| announcements := Some kept; last_check := lc;
                      total_count := Z.of_nat (length kept) |}).
Proof.
  intros Hfetch Hne Hload Hdisk current new_announcements kept.
  unfold run_once. rewrite Hfetch.
  apply truthy_iff in Hne. rewrite Hne. cbn [negb].
  unfold bind at 1. rewrite parse_announcements_records. fold current.
  unfold bind at 1.
  rewrite (load_existing_data_file w (advance (length current) w) (Dict d) Hload eq_refl).
  unfold bind at 1. unfold lift at 1.
  rewrite detect_new_announcements_filter. fold new_announcements.
  unfold bind at 1.
  destruct (notify_new_announcements_returns platform_system plyer_ok new_announcements
              (advance (length current) w)) as (w2 & -> & Hfile & _).
  unfold bind at 1. unfold lift at 1. cbn [dict_get_announcements].
  unfold bind at 1. unfold strftime_now at 1.
  rewrite Hdisk. unfold save_data, set_file. cbn [w_file].
  eexists _, _. split; reflexivity.
Qed.

Lemma retained_suffix (l : list announcement) :
  exists dropped,
    l = (dropped ++ retained l)%list /\
    length (retained l) = Nat.min max_announcements (length l).
Proof.
  unfold retained. destruct (Nat.ltb_spec max_announcements (length l)) as [Hlt|Hge].
  - exists (take (length l - max_announcements) l).
    change (slice_from_end max_announcements l) with (drop (length l - max_announcements) l).
    split; [symmetry; apply take_drop|]. rewrite length_drop. lia.
  - exists []. split; [reflexivity | lia].
Qed.

(** C4.  A cycle that fetches a page, loads a dictionary and writes without
    fault leaves in the data file at most [max_announcements] records: the
    stored records followed by the new records of the cycle, minus a prefix,
    that is, the last [max_announcements] of them in their order, the oldest
    being the ones dropped. *)
Theorem run_once_keeps_most_recent ci w html d :
  fetch_page_content (ci_http ci) = Some html ->
  html <> "" ->
  fst (load_existing_data w) = Return (Dict d) ->
  ci_disk ci = WriteOk ->
  exists w' d' current w1 new_announcements kept dropped,
    run_once clock find_all_links platform_system plyer_ok ci w = (Return tt, w') /\
    w_file w' = Stored (Dict d') /\
    announcements d' = Some kept /\
    parse_announcements clock find_all_links html w = (Return current, w1) /\
    detect_new_announcements current (Dict d) = Return new_announcements /\
    (length kept <= max_announcements)%nat /\
    (get_announcements d ++ new_announcements = dropped ++ kept)%list /\
    length kept =
      Nat.min max_announcements (length (get_announcements d ++ new_announcements)).
Proof.
  intros Hfetch Hne Hload Hdisk.
  destruct (run_once_saves ci w html d Hfetch Hne Hload Hdisk) as (w' & lc & Hrun & Hfile).
  destruct (retained_suffix (get_announcements d ++
             filter (fun r => ann_id r ∉ ann_id <$> get_announcements d)
               (records_of clock (w_ticks w) (default [] (find_all_links html)))))
    as (dropped & Hsplit & Hlen).
  eexists w', _, _, _, _, _, dropped.
  split; [exact Hrun|]. split; [exact Hfile|]. split; [reflexivity|].
  split; [apply parse_announcements_records|].
  split; [apply detect_new_announcements_filter|].
  split; [rewrite Hlen; apply Nat.le_min_l|].
  split; [exact Hsplit | exact Hlen].
Qed.

(** C10.  After such a cycle the [total_count] written is the number of
    records written, counted after the eviction, so it never exceeds
    [max_announcements]: it counts the records kept, not the records seen. *)
Theorem run_once_total_count ci w html d :
  fetch_page_content (ci_http ci) = Some html ->
  html <> "" ->
  fst (load_existing_data w) = Return (Dict d) ->
  ci_disk ci = WriteOk ->
  exists w' d',
    run_once clock find_all_links platform_system plyer_ok ci w = (Return tt, w') /\
    w_file w' = Stored (Dict d') /\
    total_count d' = Z.of_nat (length (get_announcements d')) /\
    0 <= total_count d' <= Z.of_nat max_announcements.
Proof.
  intros Hfetch Hne Hload Hdisk.
  destruct (run_once_saves ci w html d Hfetch Hne Hload Hdisk) as (w' & lc & Hrun & Hfile).
  eexists w', _. split; [exact Hrun|]. split; [exact Hfile|].
  cbn [total_count get_announcements announcements default from_option].
  split; [reflexivity|].
  match goal with |- context [retained ?l] =>
    destruct (retained_suffix l) as (_ & _ & ->) end.
  lia.
Qed.

Lemma run_once_unreachable ci w :
  fetch_page_content (ci_http ci) = None ->
  run_once clock find_all_links platform_system plyer_ok ci w = (Return tt, w).
Proof. intros H. unfold run_once. rewrite H. reflexivity. Qed.

(** The only exception a cycle lets through is the [AttributeError] of a data
    file that holds no dictionary: the [RequestException] of a failed fetch
    is caught in [fetch_page_content]. *)
Lemma run_once_raises_attribute_error_only ci w e w' :
  run_once clock find_all_links platform_system plyer_ok ci w = (Raise e, w') ->
  e = AttributeError.
Proof.
  unfold run_once.
  destruct (fetch_page_content (ci_http ci)) as [html|]; [|discriminate].
  destruct (negb (truthy html)); [discriminate|].
  unfold bind at 1. rewrite parse_announcements_records.
  unfold bind at 1. unfold load_existing_data at 1. cbn [w_file advance].
  assert (Hcases : forall v w0,
    (let* new_announcements :=
       lift (detect_new_announcements
               (records_of clock (w_ticks w) (default [] (find_all_links html))) v) in
     let* _ := notify_new_announcements platform_system plyer_ok new_announcements in
     let* stored := lift (dict_get_announcements v) in
     let all_announcements := (stored ++ new_announcements)%list in
     let max_count := max_announcements in
     let all_announcements0 :=
       if (max_count <? length all_announcements)%nat
       then slice_from_end max_count all_announcements
       else all_announcements in
     let* now := strftime_now clock in
     save_data (ci_disk ci)
       {| announcements := Some all_announcements0; last_check := now;
          total_count := Z.of_nat (length all_announcements0) |}) w0 = (Raise e, w') ->
    e = AttributeError).
  { intros v w0. destruct v as [d|].
    - unfold bind at 1. unfold lift at 1. rewrite detect_new_announcements_filter.
      unfold bind at 1.
      match goal with |- context [notify_new_announcements _ _ ?n w0] =>
        destruct (notify_new_announcements_returns platform_system plyer_ok n w0)
          as (w2 & -> & _) end.
      unfold bind, lift, strftime_now, save_data. cbn [dict_get_announcements].
      destruct (ci_disk ci); discriminate.
    - unfold bind, lift. cbn [detect_new_announcements dict_get_announcements].
      congruence. }
  destruct (w_file w); apply Hcases.
Qed.

(** The identifiers stay pairwise distinct through a cycle whose page yields
    pairwise distinct identifiers: a duplicate can only enter within one
    batch. *)
Lemma NoDup_ids_filter (P : announcement -> Prop) `{forall r, Decision (P r)}
    (l : list announcement) :
  NoDup (ann_id <$> l) -> NoDup (ann_id <$> filter P l).
Proof.
  induction l as [|r l IH]; [intros _; constructor|].
  rewrite fmap_cons, NoDup_cons, filter_cons. intros [Hnot Hdup].
  destruct (decide (P r)); [|apply IH, Hdup].
  rewrite fmap_cons, NoDup_cons. split; [|apply IH, Hdup].
  intros Hin. apply Hnot.
  apply list_elem_of_fmap in Hin as (r' & -> & Hr').
  apply list_elem_of_fmap. exists r'. split; [reflexivity|].
  apply list_elem_of_filter in Hr'. tauto.
Qed.

(** X9.  A cycle keeps the stored identifiers pairwise distinct when the
    identifiers of the page's candidates are pairwise distinct: the diff
    lets no stored identifier in, and the eviction only drops records. *)
Lemma run_once_unique_ids_preserved ci w html d :
  fetch_page_content (ci_http ci) = Some html ->
  html <> "" ->
  fst (load_existing_data w) = Return (Dict d) ->
  ci_disk ci = WriteOk ->
  NoDup (ann_id <$> get_announcements d) ->
  NoDup (ann_id <$> records_of clock (w_ticks w) (default [] (find_all_links html))) ->
  exists w' d',
    run_once clock find_all_links platform_system plyer_ok ci w = (Return tt, w') /\
    w_file w' = Stored (Dict d') /\
    NoDup (ann_id <$> get_announcements d').
Proof.
  intros Hfetch Hne Hload Hdisk Hold Hbatch.
  destruct (run_once_saves ci w html d Hfetch Hne Hload Hdisk) as (w' & lc & Hrun & Hfile).
  eexists w', _. split; [exact Hrun|]. split; [exact Hfile|].
  cbn [get_announcements announcements default from_option].
  match goal with |- context [retained ?l] =>
    destruct (retained_suffix l) as (dropped & Hsplit & _);
    assert (Hall : NoDup (ann_id <$> l)) end.
  { rewrite fmap_app, NoDup_app. split; [exact Hold|]. split.
    - intros x Hx Hin. apply list_elem_of_fmap in Hin as (r & -> & Hr).
      apply list_elem_of_filter in Hr as [Hfresh _]. exact (Hfresh Hx).
    - apply NoDup_ids_filter, Hbatch. }
  rewrite Hsplit, fmap_app, NoDup_app in Hall. tauto.
Qed.

End CycleProperties.

(** A cycle on a full store: the new record comes last and record 0, the
    oldest, is the one dropped. *)
Example run_once_on_full_store :
  exists w' lc new_record,
    run_once fixed_clock (page_with [relative_notice; unrelated_link]) "Windows" always_ok
      (fetched notice_page) full_world = (Return tt, w') /\
    w_file w' =
      Stored (Dict {| announcements := Some (map old_notice (seq 1 49) ++ [new_record])%list;
                      last_check := lc; total_count := 50 |}) /\
    title new_record = "关于XX通知".
Proof. eexists _, _, _. vm_compute. repeat split. Qed.

Lemma run_once_keeps_most_recent_witness :
  exists w' d' current w1 new_announcements kept dropped,
    run_once fixed_clock (page_with [relative_notice; unrelated_link]) "Windows" always_ok
      (fetched notice_page) full_world = (Return tt, w') /\
    w_file w' = Stored (Dict d') /\
    announcements d' = Some kept /\
    parse_announcements fixed_clock (page_with [relative_notice; unrelated_link])
      notice_page full_world = (Return current, w1) /\
    detect_new_announcements current (Dict full_store) = Return new_announcements /\
    (length kept <= max_announcements)%nat /\
    (get_announcements full_store ++ new_announcements = dropped ++ kept)%list /\
    length kept =
      Nat.min max_announcements (length (get_announcements full_store ++ new_announcements)).
Proof.
  apply (run_once_keeps_most_recent fixed_clock (page_with [relative_notice; unrelated_link])
           "Windows" always_ok (fetched notice_page) full_world notice_page full_store);
    [reflexivity | discriminate | reflexivity | reflexivity].
Defined.

Lemma run_once_total_count_witness :
  exists w' d',
    run_once fixed_clock (page_with [relative_notice; unrelated_link]) "Windows" always_ok
      (fetched notice_page) full_world = (Return tt, w') /\
    w_file w' = Stored (Dict d') /\
    total_count d' = Z.of_nat (length (get_announcements d')) /\
    0 <= total_count d' <= Z.of_nat max_announcements.
Proof.
  apply (run_once_total_count fixed_clock (page_with [relative_notice; unrelated_link])
           "Windows" always_ok (fetched notice_page) full_world notice_page full_store);
    [reflexivity | discriminate | reflexivity | reflexivity].
Defined.

(** C5 fails on a page that shows one announcement twice: both anchors get
    one identifier, neither is in the empty store, so the diff keeps both and
    the first save stores the identifier twice. *)
Theorem duplicate_anchor_stored_twice :
  exists w' d,
    run_once fixed_clock (page_with [relative_notice; relative_notice]) "Windows" always_ok
      (fetched twice_page) fresh_world = (Return tt, w') /\
    w_file w' = Stored (Dict d) /\
    length (get_announcements d) = 2%nat /\
    ~ NoDup (ann_id <$> get_announcements d).
Proof.
  eexists _, _. split; [vm_compute; reflexivity|].
  split; [reflexivity|]. split; [reflexivity|].
  vm_compute. intros Hdup. apply NoDup_cons in Hdup as [Hnot _].
  apply Hnot. left.
Qed.

(** ** The daemon loop *)

Section DaemonProperties.

Variable clock : nat -> string.
Variable find_all_links : string -> option (list anchor).
Variable platform_system : string.
Variable plyer_ok : nat -> bool.

Lemma slept_more_nil w : slept_more [] w = w.
Proof. destruct w. unfold slept_more. simpl. rewrite app_nil_r. reflexivity. Qed.

Lemma slept_more_app l1 l2 w : slept_more l2 (slept_more l1 w) = slept_more (l1 ++ l2) w.
Proof. unfold slept_more. simpl. rewrite app_assoc. reflexivity. Qed.

(** A cycle whose fetch fails ends the [try] body normally, after the
    ordinary sleep. *)
Lemma try_body_unreachable ci w :
  fetch_page_content (ci_http ci) = None ->
  ci_interrupt ci = false ->
  try_body clock find_all_links platform_system plyer_ok ci w =
    (Return tt, slept_more [check_interval] w).
Proof.
  intros Hfetch Hint. unfold try_body, bind.
  rewrite (run_once_unreachable _ _ _ _ _ _ Hfetch), Hint. reflexivity.
Qed.

(** However many fetches fail in a row, the loop goes on with an error count
    of zero and sleeps the ordinary interval after each. *)
Lemma daemon_loop_unreachable inputs : forall error_count w,
  Forall (fun ci => fetch_page_content (ci_http ci) = None /\ ci_interrupt ci = false) inputs ->
  daemon_loop clock find_all_links platform_system plyer_ok inputs error_count w =
    (Looping (match inputs with [] => error_count | _ :: _ => 0 end),
     slept_more (replicate (length inputs) check_interval) w).
Proof.
  induction inputs as [|ci inputs IH]; intros error_count w Hall.
  - simpl. rewrite slept_more_nil. reflexivity.
  - apply Forall_cons in Hall as [[Hfetch Hint] Hall].
    cbn [daemon_loop]. rewrite (try_body_unreachable _ _ Hfetch Hint).
    rewrite (IH 0 _ Hall), slept_more_app.
    destruct inputs; reflexivity.
Qed.

(** C3 fails on its network half: five cycles in a row during which the site
    cannot be reached leave the daemon looping, with an error count of zero
    and five sleeps of the ordinary 1200 seconds in place of the sleeps of
    60, 120, 180 and 240 seconds and the stop.  [fetch_page_content] catches
    the [RequestException], so [run_once] returns normally and the
    [except RequestException] clause of [run_daemon] is never entered. *)
Theorem daemon_ignores_network_failures (w : world) :
  exists w',
    run_daemon clock find_all_links platform_system plyer_ok (replicate 5 network_down) w =
      (Looping 0, w') /\
    w_slept w' = (w_slept w ++ [1200; 1200; 1200; 1200; 1200])%list.
Proof.
  unfold run_daemon.
  destruct (send_windows_notification_returns platform_system plyer_ok
              "青岛人社局通知监控" "监控系统已启动，将定期检查新通知" w)
    as (b & w0 & -> & _ & _ & Hslept).
  rewrite daemon_loop_unreachable by (repeat constructor).
  eexists. split; [reflexivity|]. simpl. rewrite Hslept. reflexivity.
Qed.

(** A cycle that returns resets the error count, whatever it was. *)
Lemma daemon_loop_success_resets ci inputs error_count w w1 :
  try_body clock find_all_links platform_system plyer_ok ci w = (Return tt, w1) ->
  daemon_loop clock find_all_links platform_system plyer_ok (ci :: inputs) error_count w =
    daemon_loop clock find_all_links platform_system plyer_ok inputs 0 w1.
Proof. intros H. cbn [daemon_loop]. rewrite H. reflexivity. Qed.

(** The [try] body never raises a [RequestException]. *)
Lemma try_body_never_request_exception ci w w' :
  try_body clock find_all_links platform_system plyer_ok ci w <> (Raise RequestException, w').
Proof.
  unfold try_body, bind.
  destruct (run_once clock find_all_links platform_system plyer_ok ci w) as [[[]|e] w1] eqn:Hrun.
  - destruct (ci_interrupt ci); unfold raise, sleep; discriminate.
  - apply run_once_raises_attribute_error_only in Hrun. subst e. discriminate.
Qed.

End DaemonProperties.

(** The other half of the policy works: with a data file that holds a JSON
    list, every cycle raises [AttributeError]; the daemon sleeps 60 seconds
    after each of the first four and stops at the fifth. *)
Example daemon_stops_after_five_runtime_errors :
  exists w',
    run_daemon fixed_clock (page_with [relative_notice]) "Linux" always_ok
      (replicate 5 (fetched notice_page)) list_file_world = (Stopped RuntimeErrors, w') /\
    w_slept w' = [60; 60; 60; 60].
Proof. eexists. vm_compute. split; reflexivity. Qed.

(** Four such failures and the loop is still running, with a count of 4. *)
Example daemon_counts_runtime_errors :
  fst (run_daemon fixed_clock (page_with [relative_notice]) "Linux" always_ok
         (replicate 4 (fetched notice_page)) list_file_world) = Looping 4.
Proof. vm_compute. reflexivity. Qed.

(** The first scenario of the design document: an empty store and a page with
    one matching and one unrelated anchor.  One record is parsed, it is new,
    one notification is delivered, and the store then holds that record with
    a [total_count] of 1. *)
Example first_cycle_scenario :
  exists w' record lc,
    run_once fixed_clock (page_with [relative_notice; unrelated_link]) "Windows" always_ok
      (fetched notice_page) fresh_world = (Return tt, w') /\
    w_file w' =
      Stored (Dict {| announcements := Some [record]; last_check := lc; total_count := 1 |}) /\
    title record = "关于XX通知" /\
    url record = "https://hrss.qingdao.gov.cn/a.html" /\
    ann_id record = "1c01005ec4fc444a" /\
    w_delivered w' = [("青岛人社局新通知 (1条)", "关于XX通知")].
Proof. eexists _, _, _. vm_compute. repeat split. Qed.

(** The digests of RFC 1321, section A.5. *)
Example md5_test_suite :
  MD5.hexdigest "" = "d41d8cd98f00b204e9800998ecf8427e" /\
  MD5.hexdigest "abc" = "900150983cd24fb0d6963f7d28e17f72" /\
  MD5.hexdigest "message digest" = "f96b697d7cb7938d525a2f31aaf161d0" /\
  MD5.hexdigest "12345678901234567890123456789012345678901234567890123456789012345678901234567890"
    = "57edf4a22be3c955ac49da2e2107b67a".
Proof. vm_compute. repeat split. Qed.

(** The second scenario: the same page fetched again.  The diff is empty, no
    second notification is delivered, and the store keeps its one record. *)
Example second_cycle_scenario :
  exists w1 w2 record lc,
    run_once fixed_clock (page_with [relative_notice; unrelated_link]) "Windows" always_ok
      (fetched notice_page) fresh_world = (Return tt, w1) /\
    run_once fixed_clock (page_with [relative_notice; unrelated_link]) "Windows" always_ok
      (fetched notice_page) w1 = (Return tt, w2) /\
    w_file w2 =
      Stored (Dict {| announcements := Some [record]; last_check := lc; total_count := 1 |}) /\
    w_delivered w2 = w_delivered w1 /\
    length (w_delivered w2) = 1%nat.
Proof.
  eexists _, _, _, _. split; [vm_compute; reflexivity|].
  vm_compute. repeat split.
Qed.

(** * Further properties of the code *)

(** ** Identifiers and URLs *)

Lemma hex_digit_in_alphabet (n : Z) : In (MD5.hex_digit n) hex_alphabet.
Proof.
  unfold MD5.hex_digit. fold hex_alphabet.
  destruct (Nat.lt_ge_cases (Z.to_nat n) (length hex_alphabet)) as [Hlt|Hge].
  - apply nth_In, Hlt.
  - rewrite nth_overflow by exact Hge. vm_compute. tauto.
Qed.

Lemma digest_sixteen_bytes (msg : list Z) :
  exists b0 b1 b2 b3 b4 b5 b6 b7 rest,
    MD5.digest msg = b0 :: b1 :: b2 :: b3 :: b4 :: b5 :: b6 :: b7 :: rest.
Proof.
  unfold MD5.digest. cbv zeta. cbn [MD5.le_bytes app].
  do 9 eexists. reflexivity.
Qed.

Lemma substring_0_0 (s : string) : String.substring 0 0 s = "".
Proof. destruct s; reflexivity. Qed.

(** X1.  Whatever the title and the url, the identifier [generate_id] returns
    has exactly 16 characters, each of them one of [0123456789abcdef]. *)
Theorem generate_id_shape (title url : string) :
  String.length (generate_id title url) = 16%nat /\
  Forall (fun c => In c hex_alphabet) (list_ascii_of_string (generate_id title url)).
Proof.
  unfold generate_id, MD5.hexdigest.
  destruct (digest_sixteen_bytes (MD5.bytes_of_string (title ++ "_" ++ url)))
    as (b0 & b1 & b2 & b3 & b4 & b5 & b6 & b7 & rest & ->).
  cbn [MD5.hex_of_bytes String.substring]. rewrite substring_0_0.
  cbn [list_ascii_of_string String.length].
  split; [reflexivity|].
  repeat (constructor; [apply hex_digit_in_alphabet|]). constructor.
Qed.

Lemma startswith_get_full_url (href : string) :
  startswith (get_full_url href) "http" = true.
Proof.
  unfold get_full_url.
  destruct (startswith href "http") eqn:Hhttp; [exact Hhttp|].
  destruct (startswith href "/"); reflexivity.
Qed.

(** X2.  A resolved url always starts with "http", so resolving it again
    changes nothing: [get_full_url] is idempotent. *)
Theorem get_full_url_idempotent (href : string) :
  startswith (get_full_url href) "http" = true /\
  get_full_url (get_full_url href) = get_full_url href.
Proof.
  split; [apply startswith_get_full_url|].
  unfold get_full_url at 1. rewrite startswith_get_full_url. reflexivity.
Qed.

(** ** Slicing by characters *)

Lemma take_chars_prefix (n : nat) (s : string) :
  exists rest, s = take_chars n s ++ rest.
Proof.
  revert n; induction s as [|c s IH]; intros n; simpl.
  - exists "". reflexivity.
  - destruct (is_continuation c).
    + destruct (IH n) as [rest Hrest]. exists rest. simpl. congruence.
    + destruct n as [|n]; [exists (String c s); reflexivity|].
      destruct (IH n) as [rest Hrest]. exists rest. simpl. congruence.
Qed.

Lemma take_chars_count (n : nat) (s : string) :
  (char_count (take_chars n s) <= n)%nat.
Proof.
  revert n; induction s as [|c s IH]; intros n; simpl; [lia|].
  destruct (is_continuation c) eqn:Hc; simpl.
  - rewrite Hc. apply IH.
  - destruct n as [|n]; simpl; [lia|]. rewrite Hc. specialize (IH n). lia.
Qed.

Lemma take_chars_all (n : nat) (s : string) :
  (char_count s <= n)%nat -> take_chars n s = s.
Proof.
  revert n; induction s as [|c s IH]; intros n; simpl; [reflexivity|].
  destruct (is_continuation c).
  - intros H. f_equal. apply IH, H.
  - destruct n as [|n]; [lia|]. intros H. f_equal. apply IH. lia.
Qed.

(** ** The notifier on and off Windows *)

Section NotifierPlatforms.

Variable plyer_ok : nat -> bool.

(** X3.  On a platform whose name is not "Windows" no delivery call is ever
    made: [send_windows_notification] and [send_notification] return false
    and leave the world as it is, whatever the announcements. *)
Theorem notifier_silent_off_windows (platform_system : string)
    (title message : string) (announcements : list announcement) (w : world) :
  platform_system <> "Windows" ->
  send_windows_notification platform_system plyer_ok title message w = (Return false, w) /\
  send_notification platform_system plyer_ok announcements w = (Return false, w).
Proof.
  intros Hplatform. apply String.eqb_neq in Hplatform.
  assert (Hsend : forall t m,
    send_windows_notification platform_system plyer_ok t m w = (Return false, w)).
  { intros t m. unfold send_windows_notification. rewrite Hplatform. reflexivity. }
  split; [apply Hsend|].
  destruct announcements as [|first rest]; [reflexivity|].
  unfold send_notification. apply Hsend.
Qed.

(** X4.  On Windows, a single new announcement is delivered in one call
    whose message is the title cut to its first 100 characters: a prefix of
    the title of at most 100 characters, and the whole title when it has no
    more than 100.  The result is the back end's. *)
Theorem send_notification_single (a : announcement) (w : world) :
  exists message rest,
    send_notification "Windows" plyer_ok [a] w =
      (Return (plyer_ok (length (w_delivered w))),
       delivered_more ("青岛人社局新通知 (1条)", message) w) /\
    title a = message ++ rest /\
    (char_count message <= 100)%nat /\
    ((char_count (title a) <= 100)%nat -> message = title a).
Proof.
  destruct (take_chars_prefix 100 (title a)) as [rest Hrest].
  exists (take_chars 100 (title a)), rest.
  split; [reflexivity|]. split; [exact Hrest|].
  split; [apply take_chars_count | apply take_chars_all].
Qed.

(** X5.  On Windows, a non-empty list of new announcements gives exactly one
    delivery call, whose title carries the number of announcements; the
    result is the back end's. *)
Theorem send_notification_one_call (announcements : list announcement) (w : world) :
  announcements <> [] ->
  exists message,
    send_notification "Windows" plyer_ok announcements w =
      (Return (plyer_ok (length (w_delivered w))),
       delivered_more
         ("青岛人社局新通知 (" ++ str_of_nat (length announcements) ++ "条)", message) w).
Proof.
  destruct announcements as [|first rest]; [congruence|]. intros _.
  eexists. reflexivity.
Qed.

End NotifierPlatforms.

Lemma notifier_silent_off_windows_witness :
  send_windows_notification "Linux" always_ok "青岛人社局通知监控" "监控系统已停止" fresh_world
    = (Return false, fresh_world) /\
  send_notification "Linux" always_ok [old_notice 0; old_notice 1] fresh_world
    = (Return false, fresh_world).
Proof.
  apply (notifier_silent_off_windows always_ok "Linux"). discriminate.
Defined.

Lemma send_notification_one_call_witness :
  exists message,
    send_notification "Windows" always_ok [old_notice 0; old_notice 1] fresh_world =
      (Return (always_ok (length (w_delivered fresh_world))),
       delivered_more
         ("青岛人社局新通知 (" ++ str_of_nat (length [old_notice 0; old_notice 1]) ++ "条)",
          message) fresh_world).
Proof.
  apply (send_notification_one_call always_ok [old_notice 0; old_notice 1] fresh_world).
  discriminate.
Defined.

(** ** One cycle, case by case *)

Section CycleCases.

Variable clock : nat -> string.
Variable find_all_links : string -> option (list anchor).
Variable platform_system : string.
Variable plyer_ok : nat -> bool.

Lemma notify_new_announcements_effect (new_announcements : list announcement) (w : world) :
  exists w2,
    notify_new_announcements platform_system plyer_ok new_announcements w = (Return tt, w2) /\
    w_file w2 = w_file w /\ w_ticks w2 = w_ticks w /\ w_slept w2 = w_slept w /\
    (w_delivered w2 = w_delivered w \/
     exists call, w_delivered w2 = (w_delivered w ++ [call])%list) /\
    (new_announcements = [] -> w2 = w).
Proof.
  destruct new_announcements as [|first rest].
  - exists w. repeat split. left. reflexivity.
  - unfold notify_new_announcements, send_notification, bind, send_windows_notification.
    destruct (negb windows_notification_enabled), (negb (platform_system =? "Windows")%string);
      eexists; (split; [reflexivity|]); repeat split; try discriminate;
      first [left; reflexivity | right; eexists; reflexivity].
Qed.

(** A cycle that fetched a non-empty page, in closed form. *)
Lemma run_once_fetched ci w html :
  fetch_page_content (ci_http ci) = Some html ->
  html <> "" ->
  let current := records_of clock (w_ticks w) (default [] (find_all_links html)) in
  let w1 := advance (length current) w in
  run_once clock find_all_links platform_system plyer_ok ci w =
    match loaded_dict (w_file w) with
    | None => (Raise AttributeError, w1)
    | Some d =>
        let new_announcements :=
          filter (fun r => ann_id r ∉ ann_id <$> get_announcements d) current in
        let w2 := snd (notify_new_announcements platform_system plyer_ok new_announcements w1) in
        let kept := retained (get_announcements d ++ new_announcements) in
        save_data (ci_disk ci)
          {| announcements := Some kept; last_check := clock (w_ticks w2);
             total_count := Z.of_nat (length kept) |} (ticked w2)
    end.
Proof.
  intros Hfetch Hne current w1.
  unfold run_once. rewrite Hfetch.
  apply truthy_iff in Hne. rewrite Hne. cbn [negb].
  unfold bind at 1. rewrite parse_announcements_records. fold current. fold w1.
  unfold bind at 1. unfold load_existing_data at 1.
  replace (w_file w1) with (w_file w) by reflexivity.
  destruct (w_file w) as [| |[d|]]; cbn [loaded_dict];
    try (unfold bind at 1; unfold lift at 1; rewrite detect_new_announcements_filter;
         unfold bind at 1;
         match goal with |- context [notify_new_announcements _ _ ?n w1] =>
           destruct (notify_new_announcements_effect n w1) as (w2 & Hn & _); rewrite Hn
         end;
         reflexivity).
  reflexivity.
Qed.

Lemma run_once_quiet ci w :
  fetch_page_content (ci_http ci) = None \/ fetch_page_content (ci_http ci) = Some "" ->
  run_once clock find_all_links platform_system plyer_ok ci w = (Return tt, w).
Proof. unfold run_once. intros [->| ->]; reflexivity. Qed.

Lemma save_data_returns disk data w :
  exists w', save_data disk data w = (Return tt, w') /\
    w_ticks w' = w_ticks w /\ w_delivered w' = w_delivered w /\ w_slept w' = w_slept w /\
    (disk = WriteRefused -> w_file w' = w_file w).
Proof. destruct disk; eexists; repeat split; discriminate. Qed.

(** X6.  With a data file that is missing, undecodable, or a dictionary of
    the shape [save_data] writes, a cycle returns normally whatever the fetch
    and the write do: a failed fetch and a failed write are swallowed.  With
    a data file that deserialises to a JSON value which is no dictionary, a
    cycle on a fetched, non-empty page raises [AttributeError] before
    anything is notified or written: the data file, the delivery calls and
    the sleeps are as they were. *)
Theorem run_once_file_kinds ci w :
  (forall d, loaded_dict (w_file w) = Some d ->
     exists w',
       run_once clock find_all_links platform_system plyer_ok ci w = (Return tt, w')) /\
  (forall html,
     fetch_page_content (ci_http ci) = Some html -> html <> "" ->
     w_file w = Stored NonDict ->
     exists w',
       run_once clock find_all_links platform_system plyer_ok ci w = (Raise AttributeError, w') /\
       w_file w' = w_file w /\ w_delivered w' = w_delivered w /\ w_slept w' = w_slept w).
Proof.
  split.
  - intros d Hload.
    destruct (fetch_page_content (ci_http ci)) as [html|] eqn:Hfetch;
      [|exists w; apply run_once_quiet; left; exact Hfetch].
    destruct (string_dec html "") as [->|Hne];
      [exists w; apply run_once_quiet; right; exact Hfetch|].
    rewrite (run_once_fetched ci w html Hfetch Hne), Hload. cbv zeta.
    match goal with |- context [save_data ?k ?data ?w0] =>
      destruct (save_data_returns k data w0) as (w3 & Hsave & _) end.
    exists w3. exact Hsave.
  - intros html Hfetch Hne Hfile.
    rewrite (run_once_fetched ci w html Hfetch Hne), Hfile. cbn [loaded_dict].
    eexists. split; [reflexivity|]. cbn [advance w_file w_delivered w_slept].
    split; [exact Hfile|]. split; reflexivity.
Qed.

(** X7.  What a cycle leaves alone, however it ends: it never sleeps; it
    makes at most one delivery call; it leaves the data file as it was when
    the write is refused; and when the fetch fails or the page is empty it
    changes nothing at all. *)
Theorem run_once_effects ci w :
  let w' := snd (run_once clock find_all_links platform_system plyer_ok ci w) in
  w_slept w' = w_slept w /\
  (w_delivered w' = w_delivered w \/
   exists call, w_delivered w' = (w_delivered w ++ [call])%list) /\
  (ci_disk ci = WriteRefused -> w_file w' = w_file w) /\
  (fetch_page_content (ci_http ci) = None \/ fetch_page_content (ci_http ci) = Some "" ->
   w' = w).
Proof.
  intros w'.
  assert (Hquiet : fetch_page_content (ci_http ci) = None \/
                   fetch_page_content (ci_http ci) = Some "" -> w' = w).
  { intros H. unfold w'. rewrite run_once_quiet by exact H. reflexivity. }
  destruct (fetch_page_content (ci_http ci)) as [html|] eqn:Hfetch;
    [|rewrite Hquiet by (left; reflexivity); repeat split; auto].
  destruct (string_dec html "") as [->|Hne];
    [rewrite Hquiet by (right; reflexivity); repeat split; auto|].
  unfold w'. rewrite (run_once_fetched ci w html Hfetch Hne).
  destruct (loaded_dict (w_file w)) as [d|].
  - cbv zeta.
    match goal with |- context [notify_new_announcements _ _ ?n ?w1] =>
      destruct (notify_new_announcements_effect n w1)
        as (w2 & Hn & Hf2 & Ht2 & Hs2 & Hd2 & _); rewrite Hn end.
    cbn [snd].
    match goal with |- context [save_data ?k ?data ?w0] =>
      destruct (save_data_returns k data w0) as (w3 & Hsave & _ & Hd3 & Hs3 & Hf3);
      rewrite Hsave end.
    cbn [snd]. cbn [ticked w_delivered w_slept w_file] in Hd3, Hs3, Hf3.
    rewrite Hs3, Hs2, Hd3. cbn [advance w_slept w_delivered] in *.
    split; [reflexivity|]. split; [exact Hd2|]. split.
    + intros Hdisk. rewrite (Hf3 Hdisk), Hf2. reflexivity.
    + intros [H|H]; [discriminate H | injection H as H; contradiction].
  - cbn [snd advance w_slept w_delivered w_file].
    split; [reflexivity|]. split; [left; reflexivity|]. split; [reflexivity|].
    intros [H|H]; [discriminate H | injection H as H; contradiction].
Qed.

Lemma records_of_ids t links :
  ann_id <$> records_of clock t links = candidate_ids links.
Proof.
  unfold candidate_ids. revert t.
  induction links as [|a links IH]; intros t; simpl; [reflexivity|].
  rewrite filter_cons.
  destruct (is_announcement_link (text a) (href a)) eqn:E.
  - rewrite decide_True by reflexivity. simpl. rewrite IH. reflexivity.
  - rewrite decide_False by discriminate. apply IH.
Qed.

Lemma retained_under_cap (l : list announcement) :
  (length l <= max_announcements)%nat -> retained l = l.
Proof.
  intros Hle. unfold retained.
  destruct (Nat.ltb_spec max_announcements (length l)); [lia | reflexivity].
Qed.

(** X8.  No announcement is notified twice while the store has room: after a
    cycle that wrote the stored and the new records without dropping any, a
    cycle on the same page finds nothing new, makes no delivery call, and,
    if it writes, writes the same records again. *)
Theorem run_once_again_no_news ci1 ci2 w html d :
  let current := records_of clock (w_ticks w) (default [] (find_all_links html)) in
  let new_announcements :=
    filter (fun r => ann_id r ∉ ann_id <$> get_announcements d) current in
  fetch_page_content (ci_http ci1) = Some html ->
  fetch_page_content (ci_http ci2) = Some html ->
  html <> "" ->
  loaded_dict (w_file w) = Some d ->
  ci_disk ci1 = WriteOk ->
  (length (get_announcements d ++ new_announcements) <= max_announcements)%nat ->
  exists w1 w2 lc1,
    run_once clock find_all_links platform_system plyer_ok ci1 w = (Return tt, w1) /\
    w_file w1 =
      Stored (Dict {| announcements := Some (get_announcements d ++ new_announcements)%list;
                      last_check := lc1;
                      total_count :=
                        Z.of_nat (length (get_announcements d ++ new_announcements)) |}) /\
    run_once clock find_all_links platform_system plyer_ok ci2 w1 = (Return tt, w2) /\
    w_delivered w2 = w_delivered w1 /\
    (ci_disk ci2 = WriteOk ->
     exists lc2,
       w_file w2 =
         Stored (Dict {| announcements := Some (get_announcements d ++ new_announcements)%list;
                         last_check := lc2;
                         total_count :=
                           Z.of_nat (length (get_announcements d ++ new_announcements)) |})).
Proof.
  intros current new_announcements Hfetch1 Hfetch2 Hne Hload Hdisk Hcap.
  rewrite (run_once_fetched ci1 w html Hfetch1 Hne), Hload. cbv zeta.
  fold current. fold new_announcements.
  rewrite (retained_under_cap _ Hcap), Hdisk.
  destruct (notify_new_announcements_effect new_announcements (advance (length current) w))
    as (wn & Hn & _). rewrite Hn. cbn [snd save_data].
  match goal with |- context [(Return tt, ?w1)] =>
    exists w1, (snd (run_once clock find_all_links platform_system plyer_ok ci2 w1)),
           (clock (w_ticks wn)) end.
  split; [reflexivity|]. split; [reflexivity|].
  rewrite (run_once_fetched ci2 _ html Hfetch2 Hne).
  cbn [set_file w_file loaded_dict w_ticks ticked]. cbv zeta.
  cbn [get_announcements announcements default from_option].
  fold (get_announcements d).
  rewrite filter_unseen_nil.
  - cbn [notify_new_announcements ret snd]. rewrite app_nil_r. unfold id.
    rewrite (retained_under_cap _ Hcap).
    destruct (ci_disk ci2); cbn [save_data snd];
      (split; [reflexivity|]); (split; [reflexivity|]);
      try discriminate.
    intros _. eexists. reflexivity.
  - intros r Hr.
    assert (Hid : ann_id r ∈ ann_id <$> current).
    { unfold current. rewrite records_of_ids.
      rewrite <- (records_of_ids (S (w_ticks wn))).
      apply list_elem_of_fmap. exists r. split; [reflexivity | exact Hr]. }
    apply list_elem_of_fmap in Hid as (r1 & Heq & Hr1).
    unfold id. rewrite fmap_app, elem_of_app.
    destruct (decide (ann_id r1 ∈ ann_id <$> get_announcements d)) as [Hold|Hfresh].
    + left. rewrite Heq. exact Hold.
    + right. apply list_elem_of_fmap. exists r1. split; [exact Heq|].
      apply list_elem_of_filter. split; [exact Hfresh | exact Hr1].
Qed.

End CycleCases.

Lemma run_once_again_no_news_witness :
  exists w1 w2,
    run_once fixed_clock (page_with [relative_notice; unrelated_link]) "Windows" always_ok
      (fetched notice_page) fresh_world = (Return tt, w1) /\
    run_once fixed_clock (page_with [relative_notice; unrelated_link]) "Windows" always_ok
      (fetched notice_page) w1 = (Return tt, w2) /\
    w_delivered w2 = w_delivered w1.
Proof.
  destruct (run_once_again_no_news fixed_clock (page_with [relative_notice; unrelated_link])
              "Windows" always_ok (fetched notice_page) (fetched notice_page)
              fresh_world notice_page empty_store)
    as (w1 & w2 & lc1 & Hfirst & _ & Hsecond & Hdelivered & _);
    [reflexivity | reflexivity | discriminate | reflexivity | reflexivity
    | vm_compute; lia |].
  exists w1, w2. split; [exact Hfirst|]. split; [exact Hsecond | exact Hdelivered].
Defined.

Lemma run_once_unique_ids_preserved_witness :
  exists w' d',
    run_once fixed_clock (page_with [relative_notice; unrelated_link]) "Windows" always_ok
      (fetched notice_page) full_world = (Return tt, w') /\
    w_file w' = Stored (Dict d') /\
    NoDup (ann_id <$> get_announcements d').
Proof.
  apply (run_once_unique_ids_preserved fixed_clock (page_with [relative_notice; unrelated_link])
           "Windows" always_ok (fetched notice_page) full_world notice_page full_store);
    [reflexivity | discriminate | reflexivity | reflexivity
    | refine (bool_decide_unpack _ _); vm_compute; exact I
    | refine (bool_decide_unpack _ _); vm_compute; exact I].
Defined.

(** ** The daemon loop, in general *)

Section DaemonInGeneral.

Variable clock : nat -> string.
Variable find_all_links : string -> option (list anchor).
Variable platform_system : string.
Variable plyer_ok : nat -> bool.

Local Abbreviation run_once' := (run_once clock find_all_links platform_system plyer_ok).
Local Abbreviation try_body' := (try_body clock find_all_links platform_system plyer_ok).
Local Abbreviation daemon_loop' := (daemon_loop clock find_all_links platform_system plyer_ok).
Local Abbreviation run_daemon' := (run_daemon clock find_all_links platform_system plyer_ok).

Lemma run_once_outcome ci w :
  exists w',
    w_slept w' = w_slept w /\
    (run_once' ci w = (Return tt, w') \/ run_once' ci w = (Raise AttributeError, w')).
Proof.
  destruct (fetch_page_content (ci_http ci)) as [html|] eqn:Hfetch;
    [|exists w; split; [reflexivity|]; left; apply run_once_quiet; left; exact Hfetch].
  destruct (string_dec html "") as [->|Hne];
    [exists w; split; [reflexivity|]; left; apply run_once_quiet; right; exact Hfetch|].
  rewrite (run_once_fetched _ _ _ _ ci w html Hfetch Hne).
  destruct (loaded_dict (w_file w)) as [d|].
  - cbv zeta.
    match goal with |- context [notify_new_announcements _ _ ?n ?w1] =>
      destruct (notify_new_announcements_effect platform_system plyer_ok n w1)
        as (w2 & Hn & _ & _ & Hs2 & _); rewrite Hn end.
    cbn [snd].
    match goal with |- context [save_data ?k ?data ?w0] =>
      destruct (save_data_returns k data w0) as (w3 & Hsave & _ & _ & Hs3 & _);
      rewrite Hsave end.
    exists w3. split; [|left; reflexivity].
    rewrite Hs3. cbn [ticked w_slept]. rewrite Hs2. reflexivity.
  - eexists. split; [|right; reflexivity]. reflexivity.
Qed.

(** The three ways the body of the [try] can end, with the sleeps made. *)
Lemma try_body_cases ci w :
  exists w',
    (try_body' ci w = (Return tt, w') /\ w_slept w' = (w_slept w ++ [check_interval])%list) \/
    (try_body' ci w = (Raise KeyboardInterrupt, w') /\
     w_slept w' = (w_slept w ++ [check_interval])%list) \/
    (try_body' ci w = (Raise AttributeError, w') /\ w_slept w' = w_slept w).
Proof.
  unfold try_body, bind.
  destruct (run_once_outcome ci w) as (w1 & Hs & [-> | ->]).
  - cbn [sleep]. destruct (ci_interrupt ci); eexists.
    + right. left. split; [reflexivity|]. cbn [w_slept]. rewrite Hs. reflexivity.
    + left. split; [reflexivity|]. cbn [w_slept]. rewrite Hs. reflexivity.
  - exists w1. right. right. split; [reflexivity | exact Hs].
Qed.

Lemma daemon_loop_states inputs : forall error_count w,
  0 <= error_count < max_errors ->
  exists st w' sleeps,
    daemon_loop' inputs error_count w = (st, w') /\
    match st with
    | Looping c => 0 <= c < max_errors
    | Stopped NetworkErrors => False
    | Stopped _ => True
    end /\
    w_slept w' = (w_slept w ++ sleeps)%list /\
    Forall (fun s => s = check_interval \/ s = 60) sleeps.
Proof.
  induction inputs as [|ci inputs IH]; intros c w Hc.
  - exists (Looping c), w, []. rewrite app_nil_r. repeat split; try lia. constructor.
  - cbn [daemon_loop].
    destruct (try_body_cases ci w) as (w1 & [[-> Hs] | [[-> Hs] | [-> Hs]]]).
    + destruct (IH 0 w1) as (st & w' & sleeps & -> & Hst & Hs' & Hall);
        [unfold max_errors; lia|].
      exists st, w', (check_interval :: sleeps). split; [reflexivity|].
      split; [exact Hst|]. split.
      * rewrite Hs', Hs, <- app_assoc. reflexivity.
      * constructor; [left; reflexivity | exact Hall].
    + destruct (send_windows_notification_returns platform_system plyer_ok
                  "青岛人社局通知监控" "监控系统已停止" w1) as (b & w2 & -> & _ & _ & Hs2).
      exists (Stopped Cancelled), w2, [check_interval].
      split; [reflexivity|]. split; [exact I|]. split; [congruence|].
      constructor; [left; reflexivity | constructor].
    + destruct (Z.geb_spec (c + 1) max_errors) as [Hge|Hlt].
      * exists (Stopped RuntimeErrors), w1, []. rewrite app_nil_r.
        repeat split; [exact Hs | constructor].
      * cbn [sleep]. destruct (ci_interrupt ci).
        -- eexists (Stopped Interrupted), _, [60]. split; [reflexivity|].
           split; [exact I|]. split; [cbn [w_slept]; rewrite Hs; reflexivity|].
           constructor; [right; reflexivity | constructor].
        -- match goal with |- context [daemon_loop' inputs (c + 1) ?w2] =>
             destruct (IH (c + 1) w2) as (st & w' & sleeps & -> & Hst & Hs' & Hall);
               [lia|] end.
           exists st, w', (60 :: sleeps). split; [reflexivity|].
           split; [exact Hst|]. split.
           ++ rewrite Hs'. cbn [w_slept]. rewrite Hs, <- app_assoc. reflexivity.
           ++ constructor; [right; reflexivity | exact Hall].
Qed.

(** X10.  However long the daemon runs and whatever it meets, it is either
    still looping with an error count from 0 to 4, or stopped by Ctrl+C, or
    stopped by five runtime errors in a row; it never stops for network
    errors.  Every sleep it makes lasts the check interval of 1200 seconds
    or 60 seconds, the escalating network backoff never being used. *)
Theorem run_daemon_states (inputs : list cycle_input) (w : world) :
  exists st w' sleeps,
    run_daemon' inputs w = (st, w') /\
    match st with
    | Looping c => 0 <= c < max_errors
    | Stopped NetworkErrors => False
    | Stopped _ => True
    end /\
    w_slept w' = (w_slept w ++ sleeps)%list /\
    Forall (fun s => s = check_interval \/ s = 60) sleeps.
Proof.
  unfold run_daemon.
  destruct (send_windows_notification_returns platform_system plyer_ok
              "青岛人社局通知监控" "监控系统已启动，将定期检查新通知" w)
    as (b & w0 & -> & _ & _ & Hs0).
  destruct (daemon_loop_states inputs 0 w0) as (st & w' & sleeps & Hrun & Hst & Hs & Hall);
    [unfold max_errors; lia|].
  exists st, w', sleeps. rewrite Hrun, Hs, Hs0. repeat split; assumption.
Qed.

Lemma try_body_non_dict ci w :
  w_file w = Stored NonDict ->
  (exists html, fetch_page_content (ci_http ci) = Some html /\ html <> "") ->
  exists w1,
    try_body' ci w = (Raise AttributeError, w1) /\
    w_file w1 = Stored NonDict /\ w_slept w1 = w_slept w /\
    w_delivered w1 = w_delivered w.
Proof.
  intros Hfile (html & Hfetch & Hne). unfold try_body, bind.
  rewrite (run_once_fetched _ _ _ _ ci w html Hfetch Hne), Hfile. cbn [loaded_dict].
  eexists. split; [reflexivity|]. cbn [advance w_file w_slept w_delivered].
  repeat split. exact Hfile.
Qed.

Lemma daemon_loop_non_dict (k : nat) : forall inputs error_count w,
  error_count + Z.of_nat (S k) = max_errors ->
  (S k <= length inputs)%nat ->
  w_file w = Stored NonDict ->
  Forall (fun ci =>
            (exists html, fetch_page_content (ci_http ci) = Some html /\ html <> "") /\
            ci_interrupt ci = false) inputs ->
  exists w',
    daemon_loop' inputs error_count w = (Stopped RuntimeErrors, w') /\
    w_slept w' = (w_slept w ++ replicate k 60)%list /\
    w_file w' = Stored NonDict /\ w_delivered w' = w_delivered w.
Proof.
  induction k as [|k IH]; intros inputs c w Hc Hlen Hfile Hall;
    (destruct inputs as [|ci inputs]; [simpl in Hlen; lia|]);
    apply Forall_cons in Hall as [[Hci Hint] Hall];
    destruct (try_body_non_dict ci w Hfile Hci) as (w1 & Htry & Hf1 & Hs1 & Hd1);
    cbn [daemon_loop]; rewrite Htry.
  - destruct (Z.geb_spec (c + 1) max_errors); [|lia].
    exists w1. rewrite app_nil_r. repeat split; assumption.
  - destruct (Z.geb_spec (c + 1) max_errors); [lia|]. cbn [sleep]. rewrite Hint.
    match goal with |- context [daemon_loop' inputs (c + 1) ?w2] =>
      destruct (IH inputs (c + 1) w2) as (w' & -> & Hs & Hf & Hd);
        [lia | simpl in Hlen; lia | exact Hf1 | exact Hall |] end.
    exists w'. split; [reflexivity|]. cbn [w_slept w_delivered] in Hs, Hd.
    rewrite Hs, Hs1, <- app_assoc, Hf, Hd, Hd1. repeat split.
Qed.

(** X12.  A data file that holds valid JSON which is not an object (a list,
    say) is never repaired: as long as pages are fetched and no Ctrl+C
    arrives, every cycle fails on it before writing, and the daemon stops at
    the fifth cycle, after four sleeps of 60 seconds, with the file as it was
    and nothing notified beyond the start-up notice. *)
Theorem run_daemon_non_dict_file (inputs : list cycle_input) (w : world) :
  w_file w = Stored NonDict ->
  Forall (fun ci =>
            (exists html, fetch_page_content (ci_http ci) = Some html /\ html <> "") /\
            ci_interrupt ci = false) inputs ->
  (5 <= length inputs)%nat ->
  exists w',
    run_daemon' inputs w = (Stopped RuntimeErrors, w') /\
    w_slept w' = (w_slept w ++ [60; 60; 60; 60])%list /\
    w_file w' = Stored NonDict /\
    w_delivered w' =
      w_delivered (snd (send_windows_notification platform_system plyer_ok
                          "青岛人社局通知监控" "监控系统已启动，将定期检查新通知" w)).
Proof.
  intros Hfile Hall Hlen. unfold run_daemon.
  destruct (send_windows_notification_returns platform_system plyer_ok
              "青岛人社局通知监控" "监控系统已启动，将定期检查新通知" w)
    as (b & w0 & -> & Hf0 & _ & Hs0).
  destruct (daemon_loop_non_dict 4 inputs 0 w0) as (w' & -> & Hs & Hf & Hd);
    [reflexivity | exact Hlen | congruence | exact Hall |].
  exists w'. rewrite Hs, Hs0. repeat split; assumption.
Qed.

(** X13.  Ctrl+C during the wait that follows a cycle stops the loop at
    once, whatever the error count and whatever would have followed: the
    interrupted call of [time.sleep] for the check interval is the last
    sleep made, the shutdown notice is attempted, and the data file is as
    the cycle left it. *)
Theorem daemon_loop_cancelled ci (later : list cycle_input) error_count w w1 :
  run_once' ci w = (Return tt, w1) ->
  ci_interrupt ci = true ->
  daemon_loop' (ci :: later) error_count w =
    (Stopped Cancelled,
     snd (send_windows_notification platform_system plyer_ok
            "青岛人社局通知监控" "监控系统已停止" (slept_more [check_interval] w1))) /\
  w_slept (snd (daemon_loop' (ci :: later) error_count w)) =
    (w_slept w ++ [check_interval])%list /\
  w_file (snd (daemon_loop' (ci :: later) error_count w)) = w_file w1.
Proof.
  intros Hrun Hint.
  destruct (run_once_outcome ci w) as (w1' & Hs & [H|H]); rewrite Hrun in H; [|discriminate].
  injection H as <-.
  assert (Hloop : daemon_loop' (ci :: later) error_count w =
    (Stopped Cancelled,
     snd (send_windows_notification platform_system plyer_ok
            "青岛人社局通知监控" "监控系统已停止" (slept_more [check_interval] w1)))).
  { cbn [daemon_loop]. unfold try_body, bind. rewrite Hrun. cbn [sleep]. rewrite Hint.
    unfold raise. fold (slept_more [check_interval] w1).
    destruct (send_windows_notification platform_system plyer_ok _ _
                (slept_more [check_interval] w1)). reflexivity. }
  rewrite Hloop. split; [reflexivity|]. cbn [snd].
  destruct (send_windows_notification_returns platform_system plyer_ok
              "青岛人社局通知监控" "监控系统已停止" (slept_more [check_interval] w1))
    as (b & w2 & -> & Hf2 & _ & Hs2).
  cbn [snd]. rewrite Hs2, Hf2. cbn [slept_more w_slept w_file]. rewrite Hs.
  split; reflexivity.
Qed.

End DaemonInGeneral.

Lemma run_daemon_non_dict_file_witness :
  exists w',
    run_daemon fixed_clock (page_with [relative_notice]) "Linux" always_ok
      (replicate 7 (fetched notice_page)) list_file_world = (Stopped RuntimeErrors, w') /\
    w_slept w' = (w_slept list_file_world ++ [60; 60; 60; 60])%list /\
    w_file w' = Stored NonDict /\
    w_delivered w' =
      w_delivered (snd (send_windows_notification "Linux" always_ok
                          "青岛人社局通知监控" "监控系统已启动，将定期检查新通知"
                          list_file_world)).
Proof.
  apply (run_daemon_non_dict_file fixed_clock (page_with [relative_notice]) "Linux" always_ok
           (replicate 7 (fetched notice_page)) list_file_world).
  - reflexivity.
  - repeat constructor; exists notice_page; (split; [reflexivity | discriminate]).
  - simpl. lia.
Defined.

Lemma daemon_loop_cancelled_witness :
  daemon_loop fixed_clock (page_with [relative_notice]) "Windows" always_ok
    (interrupted notice_page :: replicate 3 network_down) 3 fresh_world =
    (Stopped Cancelled,
     snd (send_windows_notification "Windows" always_ok "青岛人社局通知监控" "监控系统已停止"
            (slept_more [check_interval]
               (snd (run_once fixed_clock (page_with [relative_notice]) "Windows" always_ok
                       (interrupted notice_page) fresh_world))))) /\
  w_slept (snd (daemon_loop fixed_clock (page_with [relative_notice]) "Windows" always_ok
                  (interrupted notice_page :: replicate 3 network_down) 3 fresh_world))
    = (w_slept fresh_world ++ [check_interval])%list /\
  w_file (snd (daemon_loop fixed_clock (page_with [relative_notice]) "Windows" always_ok
                 (interrupted notice_page :: replicate 3 network_down) 3 fresh_world))
    = w_file (snd (run_once fixed_clock (page_with [relative_notice]) "Windows" always_ok
                     (interrupted notice_page) fresh_world)).
Proof.
  apply (daemon_loop_cancelled fixed_clock (page_with [relative_notice]) "Windows" always_ok
           (interrupted notice_page) (replicate 3 network_down) 3 fresh_world
           (snd (run_once fixed_clock (page_with [relative_notice]) "Windows" always_ok
                   (interrupted notice_page) fresh_world)));
    [vm_compute; reflexivity | reflexivity].
Defined.

(** ** The self-check *)

Lemma directories_loop_paths env dirs : forall paths,
  paths ⊆ snd (directories_loop env dirs paths) /\
  snd (directories_loop env dirs paths) ⊆ paths ∪ list_to_set dirs /\
  fst (directories_loop env dirs paths) <> CheckFalse /\
  (fst (directories_loop env dirs paths) = CheckTrue <->
   Forall (fun d => d ∈ paths \/ mkdir_ok env d = true) dirs) /\
  (fst (directories_loop env dirs paths) = CheckTrue ->
   forall d, d ∈ dirs -> d ∈ snd (directories_loop env dirs paths)).
Proof.
  induction dirs as [|d dirs IH]; intros paths; cbn [directories_loop].
  - cbn [fst snd list_to_set]. split; [reflexivity|].
    split; [apply union_subseteq_l|]. split; [discriminate|].
    split; [split; [constructor | reflexivity]|].
    intros _ d Hd. apply elem_of_nil in Hd. contradiction.
  - cbn [list_to_set]. destruct (decide (d ∈ paths)) as [Hin|Hnot].
    + destruct (IH paths) as (Hsub & Hsup & Hnf & Hiff & Hall).
      split; [exact Hsub|]. split.
      { intros x Hx. apply Hsup, elem_of_union in Hx as [Hx|Hx];
          apply elem_of_union; [left | right; apply elem_of_union; right]; exact Hx. }
      split; [exact Hnf|]. split.
      * rewrite Hiff, Forall_cons. tauto.
      * intros Hok d' Hd'. apply elem_of_cons in Hd' as [->|Hd'];
          [apply Hsub, Hin | apply Hall; assumption].
    + destruct (mkdir_ok env d) eqn:Hmk.
      * destruct (IH ({[d]} ∪ paths)) as (Hsub & Hsup & Hnf & Hiff & Hall).
        split.
        { intros x Hx. apply Hsub, elem_of_union. right. exact Hx. }
        split.
        { intros x Hx. apply Hsup in Hx.
          rewrite !elem_of_union in Hx. rewrite !elem_of_union. tauto. }
        split; [exact Hnf|]. split.
        -- rewrite Hiff, Forall_cons. split.
           ++ intros H. split; [right; exact Hmk|].
              eapply Forall_impl; [exact H|]. intros d' [Hd'|Hd']; [|right; exact Hd'].
              apply elem_of_union in Hd' as [Hd'|Hd']; [|left; exact Hd'].
              apply elem_of_singleton in Hd'. subst d'. right. exact Hmk.
           ++ intros [_ H]. eapply Forall_impl; [exact H|].
              intros d' [Hd'|Hd']; [left; apply elem_of_union; right; exact Hd'
                                   | right; exact Hd'].
        -- intros Hok d' Hd'. apply elem_of_cons in Hd' as [->|Hd'];
             [apply Hsub, elem_of_union; left; apply elem_of_singleton; reflexivity
             | apply Hall; assumption].
      * cbn [fst snd]. split; [reflexivity|].
        split; [apply union_subseteq_l|].
        split; [discriminate|]. split; [|discriminate].
        split; [discriminate|]. rewrite Forall_cons. intros [[H|H] _]; congruence.
Qed.

(** X14.  [check_directories] never returns false and never removes a path.
    It raises exactly when a name among data, logs and utils does not exist
    and cannot be created.  When it returns, the three names exist, as a
    directory it created or as whatever was there before (a regular file
    passes the check as well), no other path was added, and a second run
    changes nothing. *)
Theorem check_directories_ensures (env : startup_env) (paths : gset string) :
  let result := fst (check_directories env paths) in
  let paths' := snd (check_directories env paths) in
  result <> CheckFalse /\
  paths ⊆ paths' /\
  paths' ⊆ paths ∪ {["data"; "logs"; "utils"]} /\
  (result = CheckTrue <->
   forall d, d ∈ required_dirs -> d ∈ paths \/ mkdir_ok env d = true) /\
  (result = CheckTrue ->
   "data" ∈ paths' /\ "logs" ∈ paths' /\ "utils" ∈ paths' /\
   check_directories env paths' = (CheckTrue, paths')).
Proof.
  intros result paths'. subst result paths'. unfold check_directories.
  destruct (directories_loop_paths env required_dirs paths)
    as (Hsub & Hsup & Hnf & Hiff & Hall).
  split; [exact Hnf|]. split; [exact Hsub|]. split.
  { intros x Hx. apply Hsup in Hx. unfold required_dirs in Hx. cbn [list_to_set] in Hx.
    rewrite !elem_of_union, !elem_of_singleton, elem_of_empty in Hx.
    rewrite !elem_of_union, !elem_of_singleton. tauto. }
  split; [rewrite Hiff, Forall_forall; reflexivity|].
  intros Hok. specialize (Hall Hok).
  assert (Hdata : "data" ∈ snd (directories_loop env required_dirs paths))
    by (apply Hall; repeat first [apply list_elem_of_here | apply list_elem_of_further]).
  assert (Hlogs : "logs" ∈ snd (directories_loop env required_dirs paths))
    by (apply Hall; repeat first [apply list_elem_of_here | apply list_elem_of_further]).
  assert (Hutils : "utils" ∈ snd (directories_loop env required_dirs paths))
    by (apply Hall; repeat first [apply list_elem_of_here | apply list_elem_of_further]).
  repeat split; try assumption.
  unfold required_dirs. cbn [directories_loop].
  rewrite !decide_True by assumption. reflexivity.
Qed.

Lemma record_check_nil name result failed_checks :
  record_check name result failed_checks = [] <-> result = CheckTrue /\ failed_checks = [].
Proof.
  destruct result; cbn [record_check].
  - tauto.
  - split; [intros H; apply app_eq_nil in H as [_ H]; discriminate | intros [H _]; discriminate].
  - split; [intros H; apply app_eq_nil in H as [_ H]; discriminate | intros [H _]; discriminate].
Qed.

Lemma check_python_version_iff env :
  check_python_version env = CheckTrue <->
  3 < fst (version_info env) \/ (fst (version_info env) = 3 /\ 8 <= snd (version_info env)).
Proof.
  unfold check_python_version. destruct (version_info env) as [major minor]. cbn [fst snd].
  destruct (Z.ltb_spec major 3), (Z.eqb_spec major 3), (Z.ltb_spec minor 8);
    cbn [orb andb]; split; try discriminate; try reflexivity; lia.
Qed.

Lemma missing_loop_nil env packages : forall missing_packages,
  missing_loop env packages missing_packages = [] <->
  missing_packages = [] /\ Forall (fun p => importable env (snd p) = true) packages.
Proof.
  induction packages as [|[package_name import_name] packages IH]; intros acc;
    cbn [missing_loop].
  - split; [intros ->; split; [reflexivity | constructor] | tauto].
  - rewrite Forall_cons. cbn [snd]. destruct (importable env import_name).
    + rewrite IH. tauto.
    + rewrite IH. split; [|intros [_ [H _]]; discriminate].
      intros [H _]. apply app_eq_nil in H as [_ H]. discriminate.
Qed.

Lemma check_dependencies_iff env :
  check_dependencies env = CheckTrue <->
  forall name, name ∈ ["requests"; "bs4"; "lxml"; "plyer"] -> importable env name = true.
Proof.
  unfold check_dependencies.
  pose proof (missing_loop_nil env required_packages []) as Hnil.
  destruct (missing_loop env required_packages []) as [|m ms].
  - split; [|reflexivity]. intros _ name Hname.
    destruct Hnil as [Hnil _]. destruct (Hnil eq_refl) as [_ Hall].
    unfold required_packages in Hall.
    repeat (apply Forall_cons in Hall as [? Hall]). cbn [snd] in *.
    repeat (apply elem_of_cons in Hname as [->|Hname]; [assumption|]).
    apply elem_of_nil in Hname. contradiction.
  - split; [discriminate|]. intros Hall.
    destruct Hnil as [_ Hnil]. 
    assert (m :: ms = []); [|discriminate].
    apply Hnil. split; [reflexivity|]. unfold required_packages.
    repeat constructor; cbn [snd]; apply Hall;
      repeat first [apply list_elem_of_here | apply list_elem_of_further].
Qed.

Lemma config_files_loop_iff files paths :
  config_files_loop files paths = CheckTrue <-> forall f, f ∈ files -> f ∈ paths.
Proof.
  induction files as [|f files IH]; cbn [config_files_loop].
  - split; [intros _ f Hf; apply elem_of_nil in Hf; contradiction | reflexivity].
  - destruct (decide (f ∈ paths)) as [Hin|Hnot].
    + rewrite IH. split.
      * intros H f' Hf'. apply elem_of_cons in Hf' as [->|Hf']; [exact Hin | apply H, Hf'].
      * intros H f' Hf'. apply H. right. exact Hf'.
    + split; [discriminate|]. intros H. exfalso. apply Hnot, H. left.
Qed.

Lemma check_network_connectivity_iff env :
  check_network_connectivity env = CheckTrue <->
  importable env "requests" = true /\ exists body, origin_response env = Response 200 body.
Proof.
  unfold check_network_connectivity.
  destruct (importable env "requests"); cbn [negb];
    [|split; [discriminate | intros [H _]; discriminate]].
  destruct (origin_response env) as [code body|].
  - destruct (Z.eqb_spec code 200) as [->|Hne].
    + split; [intros _; split; [reflexivity | exists body; reflexivity] | reflexivity].
    + split; [discriminate|]. intros [_ [body' H]]. congruence.
  - split; [discriminate|]. intros [_ [body' H]]. discriminate.
Qed.

Section StartupProperties.

Variable clock : nat -> string.
Variable find_all_links : string -> option (list anchor).
Variable platform_system : string.
Variable plyer_ok : nat -> bool.

Lemma test_notification_returns env w :
  exists result w',
    test_notification platform_system plyer_ok env w = (Return result, w') /\
    w_file w' = w_file w /\ w_ticks w' = w_ticks w /\ w_slept w' = w_slept w /\
    (result = CheckTrue <-> notifier_importable env = true).
Proof.
  unfold test_notification. destruct (notifier_importable env); cbn [negb].
  - unfold bind.
    destruct (send_windows_notification_returns platform_system plyer_ok
                "青岛人社局通知监控" "系统自检完成，通知功能正常" w) as (b & w' & -> & Hw).
    exists CheckTrue, w'. split; [reflexivity|]. destruct Hw as (Hf & Ht & Hs).
    repeat split; assumption.
  - exists CheckFalse, w. repeat split; discriminate.
Qed.

Lemma run_startup_check_checks env paths w :
  exists passed w',
    run_startup_check platform_system plyer_ok env paths w =
      (passed, snd (check_directories env paths), w') /\
    w_file w' = w_file w /\ w_ticks w' = w_ticks w /\ w_slept w' = w_slept w /\
    (passed = true <->
     check_python_version env = CheckTrue /\
     check_dependencies env = CheckTrue /\
     fst (check_directories env paths) = CheckTrue /\
     check_config_files (snd (check_directories env paths)) = CheckTrue /\
     check_network_connectivity env = CheckTrue /\
     notifier_importable env = true).
Proof.
  unfold run_startup_check, startup_checks.
  destruct (check_directories env paths) as [directories paths'].
  destruct (test_notification_returns env w) as (notified & w' & -> & Hf & Ht & Hs & Hn).
  cbn [fst snd check_platform].
  eexists _, w'. split; [reflexivity|]. split; [exact Hf|]. split; [exact Ht|].
  split; [exact Hs|]. rewrite <- Hn.
  match goal with |- (match ?l with [] => true | _ :: _ => false end) = true <-> _ =>
    assert (Hl : (match l with [] => true | _ :: _ => false end) = true <-> l = [])
      by (destruct l; split; congruence);
    rewrite Hl end.
  rewrite !record_check_nil. tauto.
Qed.

(** X15.  The self-check passes exactly when the interpreter is Python 3.8 or
    later, the four packages can be imported, each of the three directories
    exists or can be created, the four source files exist, the site origin
    answers with status 200, and the notifier module can be imported.  The
    platform and the result of the test notification play no part; the
    check never sleeps and leaves the data file alone. *)
Theorem run_startup_check_passes_iff (env : startup_env) (paths : gset string) (w : world) :
  exists passed paths' w',
    run_startup_check platform_system plyer_ok env paths w = (passed, paths', w') /\
    w_file w' = w_file w /\ w_slept w' = w_slept w /\
    (passed = true <->
     (3 < fst (version_info env) \/
      (fst (version_info env) = 3 /\ 8 <= snd (version_info env))) /\
     (forall name, name ∈ ["requests"; "bs4"; "lxml"; "plyer"] ->
                   importable env name = true) /\
     (forall d, d ∈ ["data"; "logs"; "utils"] -> d ∈ paths \/ mkdir_ok env d = true) /\
     (forall f, f ∈ ["config.py"; "scraper.py"; "utils/notifier.py"; "utils/__init__.py"] ->
                f ∈ paths) /\
     (exists body, origin_response env = Response 200 body) /\
     notifier_importable env = true).
Proof.
  destruct (run_startup_check_checks env paths w)
    as (passed & w' & Hrun & Hf & _ & Hs & Hiff).
  exists passed, (snd (check_directories env paths)), w'.
  split; [exact Hrun|]. split; [exact Hf|]. split; [exact Hs|].
  rewrite Hiff, check_python_version_iff, check_dependencies_iff,
    check_network_connectivity_iff.
  unfold check_directories, check_config_files.
  destruct (directories_loop_paths env required_dirs paths)
    as (Hsub & Hsup & _ & Hdirs & _).
  rewrite Hdirs, Forall_forall, config_files_loop_iff.
  fold required_dirs. fold config_files.
  assert (Hfiles :
    (forall f, f ∈ config_files -> f ∈ snd (directories_loop env required_dirs paths)) <->
    (forall f, f ∈ config_files -> f ∈ paths)).
  { split; intros H f Hfin; [|apply Hsub, H, Hfin].
    specialize (H f Hfin). apply Hsup, elem_of_union in H as [H|H]; [exact H|].
    exfalso. unfold required_dirs in H. cbn [list_to_set] in H.
    rewrite !elem_of_union, !elem_of_singleton, elem_of_empty in H.
    unfold config_files in Hfin.
    rewrite !elem_of_cons, elem_of_nil in Hfin.
    destruct Hfin as [->|[->|[->|[->|[]]]]]; destruct H as [H|[H|[H|[]]]]; discriminate. }
  rewrite Hfiles. split.
  - intros (Hpy & Hdep & Hd & Hcfg & [_ Hnet] & Hnot). repeat split; assumption.
  - intros (Hpy & Hdep & Hd & Hcfg & Hnet & Hnot). repeat split; try assumption.
    apply Hdep. apply list_elem_of_here.
Qed.

(** X16.  When the site origin does not answer with status 200 at start-up,
    [main] returns before building the scraper, whatever the flags: no
    cycle runs, nothing is fetched from the listing page, and the data
    file, the clock and the sleeps are as they were. *)
Theorem main_stops_when_origin_down (env : startup_env) (daemon once : bool)
    (ci : cycle_input) (later : list cycle_input) (paths : gset string) (w : world) :
  (forall body, origin_response env <> Response 200 body) ->
  exists paths' w',
    main clock find_all_links platform_system plyer_ok env daemon once ci later paths w =
      (SelfCheckFailed, paths', w') /\
    w_file w' = w_file w /\ w_ticks w' = w_ticks w /\ w_slept w' = w_slept w.
Proof.
  intros Hdown. unfold main.
  destruct (run_startup_check_checks env paths w)
    as (passed & w' & -> & Hf & Ht & Hs & Hiff).
  destruct passed.
  - exfalso. destruct Hiff as [Hiff _].
    destruct (Hiff eq_refl) as (_ & _ & _ & _ & Hnet & _).
    apply check_network_connectivity_iff in Hnet as [_ [body Hbody]].
    exact (Hdown body Hbody).
  - cbn [negb]. eexists _, w'. split; [reflexivity|]. repeat split; assumption.
Qed.

End StartupProperties.

(** In a project directory without data and logs, a healthy environment
    passes the self-check, which creates the two directories. *)
Example self_check_healthy :
  exists w',
    run_startup_check "Windows" always_ok healthy_env project_paths fresh_world =
      (true, {["data"; "logs"]} ∪ project_paths, w') /\
    w_delivered w' = [("青岛人社局通知监控", "系统自检完成，通知功能正常")].
Proof.
  unfold run_startup_check.
  assert (Hchecks : startup_checks "Windows" always_ok healthy_env project_paths fresh_world =
            ([], {["data"; "logs"]} ∪ project_paths,
             delivered_more ("青岛人社局通知监控", "系统自检完成，通知功能正常") fresh_world)).
  { unfold startup_checks.
    assert (Hdirs : check_directories healthy_env project_paths =
                      (CheckTrue, {["data"; "logs"]} ∪ project_paths)).
    { unfold check_directories, required_dirs. cbn [directories_loop].
      rewrite decide_False by (vm_compute; intros H; discriminate H). cbn [mkdir_ok healthy_env].
      rewrite decide_False by (vm_compute; intros H; discriminate H). cbn [mkdir_ok healthy_env].
      rewrite decide_True by (vm_compute; reflexivity).
      vm_compute. reflexivity. }
    rewrite Hdirs.
    assert (Hcfg : check_config_files ({["data"; "logs"]} ∪ project_paths) = CheckTrue).
    { apply config_files_loop_iff. intros f Hf. apply elem_of_union. right.
      unfold project_paths. apply elem_of_list_to_set.
      unfold config_files in Hf. rewrite !elem_of_cons, elem_of_nil in Hf.
      rewrite !elem_of_cons. tauto. }
    rewrite Hcfg. reflexivity. }
  rewrite Hchecks. eexists. split; reflexivity.
Qed.

Lemma main_stops_when_origin_down_witness :
  exists paths' w',
    main fixed_clock (page_with [relative_notice]) "Windows" always_ok offline_env true false
      (fetched notice_page) [] project_paths fresh_world = (SelfCheckFailed, paths', w') /\
    w_file w' = w_file fresh_world /\ w_ticks w' = w_ticks fresh_world /\
    w_slept w' = w_slept fresh_world.
Proof.
  apply (main_stops_when_origin_down fixed_clock (page_with [relative_notice]) "Windows"
           always_ok offline_env true false (fetched notice_page) [] project_paths fresh_world).
  intros body. discriminate.
Defined.

Lemma run_once_file_kinds_witness :
  (exists w',
     run_once fixed_clock (page_with [relative_notice]) "Windows" always_ok
       (fetched notice_page) full_world = (Return tt, w')) /\
  (exists w',
     run_once fixed_clock (page_with [relative_notice]) "Windows" always_ok
       (fetched notice_page) list_file_world = (Raise AttributeError, w') /\
     w_file w' = w_file list_file_world /\
     w_delivered w' = w_delivered list_file_world /\
     w_slept w' = w_slept list_file_world).
Proof.
  split.
  - apply (run_once_file_kinds fixed_clock (page_with [relative_notice]) "Windows" always_ok
             (fetched notice_page) full_world) with (d := full_store).
    reflexivity.
  - apply (run_once_file_kinds fixed_clock (page_with [relative_notice]) "Windows" always_ok
             (fetched notice_page) list_file_world) with (html := notice_page);
      [reflexivity | discriminate | reflexivity].
Defined.

(** Ctrl+C during the back-off sleep of the [except Exception] clause: the
    [KeyboardInterrupt] leaves [run_daemon] after the one sleep of 60
    seconds, and no shutdown notice follows the start-up notice. *)
Example daemon_interrupted_in_backoff :
  exists w',
    run_daemon fixed_clock (page_with [relative_notice]) "Windows" always_ok
      (interrupted notice_page :: replicate 4 (fetched notice_page)) list_file_world
      = (Stopped Interrupted, w') /\
    w_slept w' = [60] /\
    w_delivered w' = [("青岛人社局通知监控", "监控系统已启动，将定期检查新通知")].
Proof. eexists. vm_compute. repeat split. Qed.
